(** * weather.py: fetch, project, render and present a weather reading

    A shallow embedding of [weather.py], the single module of the e-paper
    weather display.  The script is a straight line of four stages
    ([fetch_weather_data], [process_weather_data], [generate_display_image],
    [display_image]) driven by [main].

    - Python values are the ones [response.json()] can return: [None], booleans,
      unbounded integers ([Z]), binary64 floats (the kernel's [float]),
      strings, lists and dictionaries (association lists in insertion order).
    - Text is a [string] of 8-bit characters.  [str.title] and the [repr] of
      a string are modelled for ASCII text, where they are Python's: the case
      mapping is the ASCII one and characters above 127 are carried through
      unchanged, which is not what Python does with all of them.  A property
      whose conclusion depends on the value of [title] therefore assumes an
      ASCII string ([ascii_text]).
    - [draw.text] is modelled as drawing a label of any length; the font
      library refuses text of more than 1,000,000 characters.
    - Exceptions are an error type; every stage is a computation that appends
      to a trace of observable events (log records, the HTTP request, the
      calls into the panel driver) and either returns or raises.
    - Everything outside the module (the HTTP transport, the files under
      [pic/], the clock, the panel driver) is read from a [world] record. *)

From Stdlib Require Import ZArith QArith Qround Qabs List String Ascii Bool Lia.
From Stdlib Require Import Floats DecimalString.
Import ListNotations.

Set Warnings "-inexact-float,-register-all".
Local Open Scope string_scope.
Local Open Scope Z_scope.

(** ** Python values *)

Inductive value : Type :=
| VNone
| VBool (b : bool)
| VInt (z : Z)
| VFloat (f : float)
| VStr (s : string)
| VList (l : list value)
| VDict (d : list (string * value)).

(** A dictionary is searched by key; the first binding of a key is the
    binding. *)
Fixpoint dict_get {A : Type} (k : string) (d : list (string * A)) : option A :=
  match d with
  | [] => None
  | (k', v) :: d' => if String.eqb k k' then Some v else dict_get k d'
  end.

(** ** Exceptions *)

Inductive key : Type :=
| KStr (s : string)
| KInt (i : Z).

(** The subclasses of [requests.RequestException] the transport raises. *)
Inductive request_error : Type :=
| ConnectionError
| Timeout
| HTTPError (status : Z)
| JSONDecodeError
| OtherRequestError (name : string).

Inductive exn : Type :=
| KeyError (k : key)
| IndexError
| TypeError
| AttributeError
| ValueError
| OverflowError
| RequestException (r : request_error)
| OSError (detail : string)
| OtherException (name : string).

Definition is_KeyError (e : exn) : bool :=
  match e with KeyError _ => true | _ => false end.

Definition is_RequestException (e : exn) : bool :=
  match e with RequestException _ => true | _ => false end.

Inductive outcome (A : Type) : Type :=
| Returns (a : A)
| Raises (e : exn).
Arguments Returns {A} a.
Arguments Raises {A} e.

(** ** Strings: [str.title] *)

Definition is_upper (c : ascii) : bool :=
  let n := nat_of_ascii c in (65 <=? n)%nat && (n <=? 90)%nat.

Definition is_lower (c : ascii) : bool :=
  let n := nat_of_ascii c in (97 <=? n)%nat && (n <=? 122)%nat.

Definition is_cased (c : ascii) : bool := is_upper c || is_lower c.

Definition to_upper (c : ascii) : ascii :=
  if is_lower c then ascii_of_nat (nat_of_ascii c - 32) else c.

Definition to_lower (c : ascii) : ascii :=
  if is_upper c then ascii_of_nat (nat_of_ascii c + 32) else c.

(** [str.title()] walks the string once: a character that follows a cased
    character is lowercased, any other character is titlecased (for ASCII,
    uppercased). *)
Fixpoint title_from (previous_is_cased : bool) (s : string) : string :=
  match s with
  | EmptyString => EmptyString
  | String c s' =>
      String (if previous_is_cased then to_lower c else to_upper c)
             (title_from (is_cased c) s')
  end.

Definition title (s : string) : string := title_from false s.

(** Text within ASCII, where [title] is Python's [str.title]. *)
Fixpoint ascii_text (s : string) : bool :=
  match s with
  | EmptyString => true
  | String c s' => (nat_of_ascii c <? 128)%nat && ascii_text s'
  end.

(** ** Arithmetic on values *)

(** [float(z)] for an integer: the nearest binary64, ties to even;
    [OverflowError] when that would be infinite. *)
Definition float_of_int (z : Z) : option float :=
  if Z.abs z <? 2 ^ 1024 - 2 ^ 970
  then Some (SF2Prim (binary_normalize prec emax z 0 false))
  else None.

Fixpoint repeat_string (n : nat) (s : string) : string :=
  match n with
  | O => EmptyString
  | S n' => s ++ repeat_string n' s
  end.

Fixpoint repeat_list {A : Type} (n : nat) (l : list A) : list A :=
  match n with
  | O => []
  | S n' => (l ++ repeat_list n' l)%list
  end.

(** [v * n] for an integer literal [n]. *)
Definition py_mul (v : value) (n : Z) : outcome value :=
  match v with
  | VInt z => Returns (VInt (z * n))
  | VBool b => Returns (VInt (Z.b2z b * n))
  | VFloat f =>
      match float_of_int n with
      | Some g => Returns (VFloat (f * g)%float)
      | None => Raises OverflowError
      end
  | VStr s => Returns (VStr (repeat_string (Z.to_nat n) s))
  | VList l => Returns (VList (repeat_list (Z.to_nat n) l))
  | VNone | VDict _ => Raises TypeError
  end.

(** [v[k]] for a string key. *)
Definition getitem (v : value) (k : string) : outcome value :=
  match v with
  | VDict d =>
      match dict_get k d with
      | Some x => Returns x
      | None => Raises (KeyError (KStr k))
      end
  | _ => Raises TypeError
  end.

(** [v[0]]. *)
Definition getitem_0 (v : value) : outcome value :=
  match v with
  | VList (x :: _) => Returns x
  | VList [] => Raises IndexError
  | VStr (String c _) => Returns (VStr (String c EmptyString))
  | VStr EmptyString => Raises IndexError
  | VDict _ => Raises (KeyError (KInt 0))
  | _ => Raises TypeError
  end.

(** [v.title()]: only strings have the method. *)
Definition call_title (v : value) : outcome value :=
  match v with
  | VStr s => Returns (VStr (title s))
  | _ => Raises AttributeError
  end.

(** ** Text of numbers *)

(** [str(z)] for an integer: an optional minus sign and the decimal digits. *)
Definition decimal (z : Z) : string := NilZero.string_of_int (Z.to_int z).

Fixpoint zeros (n : nat) : string :=
  match n with
  | O => EmptyString
  | S n' => String "0" (zeros n')
  end.

Definition pad_left (width : nat) (s : string) : string :=
  zeros (width - String.length s) ++ s.

(** [a / d] rounded to the nearest integer, ties to the even one ([d > 0]). *)
Definition round_half_even (a d : Z) : Z :=
  let q := a / d in
  let r := a mod d in
  if 2 * r <? d then q
  else if d <? 2 * r then q + 1
  else if Z.even q then q else q + 1.

(** The integer nearest to [m * 2^e * 10^p], ties to even: the digits the
    format code [f] with precision [p] prints for the float [m * 2^e]. *)
Definition scaled_round (m : positive) (e : Z) (p : nat) : Z :=
  let a := Z.pos m * 10 ^ Z.of_nat p in
  if 0 <=? e then a * 2 ^ e else round_half_even a (2 ^ (- e)).

(** [n] units of [10^-p], written with exactly [p] digits after the point
    (and no point when [p] is 0). *)
Definition fixed_point (n : Z) (p : nat) : string :=
  let unit := 10 ^ Z.of_nat p in
  decimal (n / unit) ++
  match p with
  | O => EmptyString
  | S _ => String "." (pad_left p (decimal (n mod unit)))
  end.

Definition sign_text (negative : bool) : string :=
  if negative then "-" else EmptyString.

(** [format(f, '.<p>f')] for a float. *)
Definition format_float_f (p : nat) (f : float) : string :=
  match Prim2SF f with
  | S754_nan => "nan"
  | S754_infinity s => sign_text s ++ "inf"
  | S754_zero s => sign_text s ++ fixed_point 0 p
  | S754_finite s m e => sign_text s ++ fixed_point (scaled_round m e p) p
  end.

(** [format(v, '.<p>f')]: floats directly, integers (and booleans, which are
    integers) through [float]; any other value has no [f] format. *)
Definition format_f (p : nat) (v : value) : outcome string :=
  match v with
  | VFloat f => Returns (format_float_f p f)
  | VInt z =>
      match float_of_int z with
      | Some f => Returns (format_float_f p f)
      | None => Raises OverflowError
      end
  | VBool b =>
      match float_of_int (Z.b2z b) with
      | Some f => Returns (format_float_f p f)
      | None => Raises OverflowError
      end
  | VStr _ => Raises ValueError
  | VNone | VList _ | VDict _ => Raises TypeError
  end.

(** *** [repr] of a float: the shortest decimal that reads back as the float *)

Definition Qpow2 (e : Z) : Q := Qpower (2 # 1) e.
Definition Qpow10 (e : Z) : Q := Qpower (10 # 1) e.

Definition exact (m : positive) (e : Z) : Q := (inject_Z (Z.pos m) * Qpow2 e)%Q.

(** Reading [d] with round-to-nearest-even gives back the float [m * 2^e]:
    [d] lies between the midpoints to the two neighbouring floats, the
    midpoints themselves counting when [m] is even. *)
Definition reads_back (m : positive) (e : Z) (d : Q) : bool :=
  let up := (inject_Z (2 * Z.pos m + 1) * Qpow2 (e - 1))%Q in
  let down :=
    if (Z.pos m =? 2 ^ 52) && (-1074 <? e)
    then (inject_Z (4 * Z.pos m - 1) * Qpow2 (e - 2))%Q
    else (inject_Z (2 * Z.pos m - 1) * Qpow2 (e - 1))%Q in
  if Z.even (Z.pos m)
  then Qle_bool down d && Qle_bool d up
  else negb (Qle_bool d down) && negb (Qle_bool up d).

(** The largest [E] with [10^E <= m * 2^e], searched downwards from an
    overestimate: with [2^b <= m * 2^e < 2^(b+1)], the exponent lies within
    2 of [b * log10 2]. *)
Fixpoint decimal_exponent_from (fuel : nat) (E : Z) (x : Q) : Z :=
  match fuel with
  | O => E
  | S fuel' =>
      if Qle_bool (Qpow10 E) x then E else decimal_exponent_from fuel' (E - 1) x
  end.

Definition decimal_exponent (m : positive) (e : Z) : Z :=
  let b := Z.log2 (Z.pos m) + e in
  decimal_exponent_from 5 (b * 30103 / 100000 + 2) (exact m e).

Definition Qdist (a b : Q) : Q := Qabs (a - b)%Q.

(** The [n]-digit decimals next to [x] are [lo * 10^s] and [(lo + 1) * 10^s];
    the result is the one that reads back, the nearer one when both do, and
    the one with the even last digit when [x] is halfway between them. *)
Definition candidate (m : positive) (e : Z) (n : Z) : option (Z * Z) :=
  let x := exact m e in
  let s := decimal_exponent m e - n + 1 in
  let lo := Qfloor (x * Qpow10 (- s))%Q in
  let dlo := (inject_Z lo * Qpow10 s)%Q in
  let dhi := (inject_Z (lo + 1) * Qpow10 s)%Q in
  match reads_back m e dlo, reads_back m e dhi with
  | true, true =>
      match (Qdist x dlo ?= Qdist x dhi)%Q with
      | Lt => Some (lo, s)
      | Gt => Some (lo + 1, s)
      | Eq => if Z.even lo then Some (lo, s) else Some (lo + 1, s)
      end
  | true, false => Some (lo, s)
  | false, true => Some (lo + 1, s)
  | false, false => None
  end.

Fixpoint shortest_from (fuel : nat) (m : positive) (e : Z) (n : Z) : Z * Z :=
  match candidate m e n with
  | Some r => r
  | None =>
      match fuel with
      | O => (Z.pos m, 0)
      | S fuel' => shortest_from fuel' m e (n + 1)
      end
  end.

Fixpoint strip_zeros (fuel : nat) (d s : Z) : Z * Z :=
  match fuel with
  | O => (d, s)
  | S fuel' => if d mod 10 =? 0 then strip_zeros fuel' (d / 10) (s + 1) else (d, s)
  end.

(** Digits and decimal point position of the shortest decimal: the value is
    [0.digits * 10^decpt]. *)
Definition shortest_digits (m : positive) (e : Z) : string * Z :=
  let '(d, s) := shortest_from 16 m e 1 in
  let '(d', s') := strip_zeros 17 d s in
  let digits := decimal d' in
  (digits, Z.of_nat (String.length digits) + s').

Definition exponent_text (x : Z) : string :=
  (if x <? 0 then "-" else "+") ++ pad_left 2 (decimal (Z.abs x)).

Definition repr_digits (digits : string) (decpt : Z) : string :=
  let n := Z.of_nat (String.length digits) in
  if (-4 <? decpt) && (decpt <=? 16) then
    if decpt <=? 0 then "0." ++ zeros (Z.to_nat (- decpt)) ++ digits
    else if n <=? decpt then digits ++ zeros (Z.to_nat (decpt - n)) ++ ".0"
    else substring 0 (Z.to_nat decpt) digits ++ "." ++
         substring (Z.to_nat decpt) (Z.to_nat (n - decpt)) digits
  else
    substring 0 1 digits ++
    (if 1 <? n then "." ++ substring 1 (Z.to_nat (n - 1)) digits else EmptyString) ++
    "e" ++ exponent_text (decpt - 1).

Definition float_repr (f : float) : string :=
  match Prim2SF f with
  | S754_nan => "nan"
  | S754_infinity s => sign_text s ++ "inf"
  | S754_zero s => sign_text s ++ "0.0"
  | S754_finite s m e =>
      let '(digits, decpt) := shortest_digits m e in
      sign_text s ++ repr_digits digits decpt
  end.

(** *** [str] and [repr] of a value *)

Definition apostrophe : ascii := "039"%char.
Definition double_quote : ascii := "034"%char.
Definition backslash : ascii := "092"%char.

Fixpoint contains (c : ascii) (s : string) : bool :=
  match s with
  | EmptyString => false
  | String c' s' => Ascii.eqb c c' || contains c s'
  end.

Definition hex_digit (n : nat) : ascii :=
  if (n <? 10)%nat then ascii_of_nat (48 + n) else ascii_of_nat (87 + n).

(** One character of a string's [repr] between quotes [q], for ASCII text:
    the quote and the backslash are escaped, so are the control characters;
    a character above 127 is carried through, where Python would escape the
    ones that do not print. *)
Definition escape (q c : ascii) : string :=
  let n := nat_of_ascii c in
  if Ascii.eqb c q || Ascii.eqb c backslash then String backslash (String c EmptyString)
  else if (n =? 9)%nat then String backslash "t"
  else if (n =? 10)%nat then String backslash "n"
  else if (n =? 13)%nat then String backslash "r"
  else if (n <? 32)%nat || (n =? 127)%nat
       then String backslash
              (String "x" (String (hex_digit (n / 16)) (String (hex_digit (n mod 16)) EmptyString)))
  else String c EmptyString.

Fixpoint escape_all (q : ascii) (s : string) : string :=
  match s with
  | EmptyString => EmptyString
  | String c s' => escape q c ++ escape_all q s'
  end.

(** Double quotes are used only when the string has an apostrophe and no
    double quote. *)
Definition str_repr (s : string) : string :=
  let q := if contains apostrophe s && negb (contains double_quote s)
           then double_quote else apostrophe in
  String q (escape_all q s ++ String q EmptyString).

Fixpoint join (sep : string) (l : list string) : string :=
  match l with
  | [] => EmptyString
  | [x] => x
  | x :: l' => x ++ sep ++ join sep l'
  end.

Fixpoint py_repr (v : value) : string :=
  match v with
  | VNone => "None"
  | VBool b => if b then "True" else "False"
  | VInt z => decimal z
  | VFloat f => float_repr f
  | VStr s => str_repr s
  | VList l => "[" ++ join ", " (map py_repr l) ++ "]"
  | VDict d =>
      "{" ++ join ", " (map (fun kv => str_repr (fst kv) ++ ": " ++ py_repr (snd kv)) d) ++ "}"
  end.

(** [str(v)], which is also what a replacement field without a format
    specification inserts. *)
Definition py_str (v : value) : string :=
  match v with
  | VStr s => s
  | _ => py_repr v
  end.

(** ** Images *)

(** The pixels of a bitmap are not modelled beyond where they come from. *)
Inductive pixels : Type :=
| Blank (color : Z)
| Decoded (path : string).

Record bitmap : Type := {
  bm_mode : string;
  bm_size : Z * Z;
  bm_pixels : pixels
}.

Record font : Type := {
  font_file : string;
  font_size : Z
}.

Inductive draw_op : Type :=
| Paste (src : bitmap) (box : Z * Z)
| DrawText (xy : Z * Z) (text : string) (fnt : font) (fill : Z).

(** An image is the bitmap it started from and what was drawn onto it, in
    order. *)
Record image : Type := {
  im_base : bitmap;
  im_drawn : list draw_op
}.

Definition im_mode (im : image) : string := bm_mode (im_base im).
Definition im_size (im : image) : Z * Z := bm_size (im_base im).

(** [Image.new(mode, size, color)] *)
Definition Image_new (mode : string) (size : Z * Z) (color : Z) : image :=
  {| im_base := {| bm_mode := mode; bm_size := size; bm_pixels := Blank color |};
     im_drawn := [] |}.

(** [template.paste(icon, box)] and [draw.text(xy, text, font, fill)] draw in
    place.  The font library refuses a text of more than 1,000,000
    characters; labels are taken to be within that limit, and drawing one
    does not fail. *)
Definition paste (template icon : image) (box : Z * Z) : image :=
  {| im_base := im_base template;
     im_drawn := (im_drawn template ++ [Paste (im_base icon) box])%list |}.

Definition draw_text (template : image) (xy : Z * Z) (text : string)
    (fnt : font) (fill : Z) : image :=
  {| im_base := im_base template;
     im_drawn := (im_drawn template ++ [DrawText xy text fnt fill])%list |}.

(** ** Events and computations *)

Definition buffer : Type := list Z.

Inductive level : Type := INFO | WARNING | ERROR.

Inductive epd_call : Type :=
| EpdInit
| EpdClear
| EpdGetbuffer (im : image)
| EpdDisplay (black red : buffer)
| EpdSleep.

(** A log record is its level and message; a message that ends with an
    exception's text keeps the exception. *)
Inductive event : Type :=
| Log (lvl : level) (msg : string) (exc : option exn)
| Get (url : string) (timeout : Z)
| Panel (c : epd_call).

Definition M (A : Type) : Type := (list event * outcome A)%type.

Definition ret {A : Type} (a : A) : M A := ([], Returns a).

Definition raise {A : Type} (e : exn) : M A := ([], Raises e).

Definition lift {A : Type} (o : outcome A) : M A := ([], o).

Definition bind {A B : Type} (m : M A) (k : A -> M B) : M B :=
  match m with
  | (t, Returns a) => let (t', r) := k a in ((t ++ t')%list, r)
  | (t, Raises e) => (t, Raises e)
  end.

(** [try: body  except ...: handler]; a handler that does not want the
    exception re-raises it. *)
Definition try_except {A : Type} (body : M A) (handler : exn -> M A) : M A :=
  match body with
  | (t, Raises e) => let (t', r) := handler e in ((t ++ t')%list, r)
  | (t, Returns a) => (t, Returns a)
  end.

Definition emit (ev : event) : M unit := ([ev], Returns tt).

Declare Scope monad_scope.
Delimit Scope monad_scope with monad.
Notation "x <- m ;; k" := (bind m (fun x => k))
  (at level 61, m at next level, right associativity) : monad_scope.
Notation "m ;; k" := (bind m (fun _ => k))
  (at level 61, right associativity) : monad_scope.
Local Open Scope monad_scope.

Definition logging_info (msg : string) : M unit := emit (Log INFO msg None).
Definition logging_warning (msg : string) : M unit := emit (Log WARNING msg None).
Definition logging_error (msg : string) (e : exn) : M unit := emit (Log ERROR msg (Some e)).

(** ** The world outside the module *)

(** A path holds nothing, an image of some size, or something [Image.open]
    fails on. *)
Inductive file : Type :=
| NoFile
| ImageFile (size : Z * Z)
| BadFile (e : exn).

Record http_response : Type := {
  status_code : Z;
  json : outcome value
}.

(** The panel driver [epd7in5b_V2.EPD]: its reported resolution and, for each
    method, whether the call raises. *)
Record EPD : Type := {
  width : Z;
  height : Z;
  init : option exn;
  Clear : option exn;
  getbuffer : image -> outcome buffer;
  display : buffer -> buffer -> option exn;
  sleep : option exn
}.

Record world : Type := {
  getenv : string -> option string;
  script_dir : string;
  truetype : string -> Z -> option exn;
  requests_get : string -> Z -> outcome http_response;
  file_at : string -> file;
  now_hour : nat;
  now_minute : nat;
  new_EPD : outcome EPD
}.

(** [os.path.join] of two components, [os.path.exists], and
    [Image.open(path).convert('1')]. *)
Definition starts_with_slash (s : string) : bool :=
  match s with
  | String c _ => Ascii.eqb c "/"
  | EmptyString => false
  end.

Fixpoint ends_with_slash (s : string) : bool :=
  match s with
  | EmptyString => false
  | String c EmptyString => Ascii.eqb c "/"
  | String _ s' => ends_with_slash s'
  end.

Definition path_join (a b : string) : string :=
  if starts_with_slash b then b
  else if (String.length a =? 0)%nat || ends_with_slash a then a ++ b
  else a ++ "/" ++ b.

Definition path_exists (w : world) (path : string) : bool :=
  match file_at w path with
  | NoFile => false
  | _ => true
  end.

Definition open_convert (w : world) (path : string) (mode : string) : M image :=
  match file_at w path with
  | NoFile => raise (OSError path)
  | BadFile e => raise e
  | ImageFile size =>
      ret {| im_base := {| bm_mode := mode; bm_size := size; bm_pixels := Decoded path |};
             im_drawn := [] |}
  end.

(** ** Configuration *)

Definition LATITUDE : string := "61.4285".
Definition LONGITUDE : string := "23.8783".
Definition UNITS : string := "metric".
Definition BASE_URL : string := "https://api.openweathermap.org/data/3.0/onecall".

Definition FONT_DIR (w : world) : string := path_join (script_dir w) "font".
Definition PIC_DIR (w : world) : string := path_join (script_dir w) "pic".
Definition ICON_DIR (w : world) : string := path_join (PIC_DIR w) "icon".

Definition COLOR_BLACK : Z := 0.
Definition COLOR_WHITE : Z := 255.

Definition Font_ttc (w : world) (size : Z) : font :=
  {| font_file := path_join (FONT_DIR w) "Font.ttc"; font_size := size |}.

Definition font22 (w : world) : font := Font_ttc w 22.
Definition font30 (w : world) : font := Font_ttc w 30.
Definition font35 (w : world) : font := Font_ttc w 35.
Definition font50 (w : world) : font := Font_ttc w 50.
Definition font60 (w : world) : font := Font_ttc w 60.
Definition font160 (w : world) : font := Font_ttc w 160.

(** ** The four stages *)

Definition url (API_KEY : string) : string :=
  BASE_URL ++ "?lat=" ++ LATITUDE ++ "&lon=" ++ LONGITUDE ++
  "&units=" ++ UNITS ++ "&appid=" ++ API_KEY.

(** [response.raise_for_status()]: a 4xx or 5xx status is an [HTTPError]. *)
Definition raise_for_status (response : http_response) : M unit :=
  if (400 <=? status_code response) && (status_code response <? 600)
  then raise (RequestException (HTTPError (status_code response)))
  else ret tt.

Definition fetch_weather_data (w : world) (API_KEY : string) : M value :=
  try_except
    (emit (Get (url API_KEY) 10) ;;
     response <- lift (requests_get w (url API_KEY) 10) ;;
     raise_for_status response ;;
     logging_info "Weather data fetched successfully." ;;
     lift (json response))
    (fun e =>
       if is_RequestException e
       then logging_error "Failed to fetch weather data: " e ;; raise e
       else raise e).

Definition weather_dict : Type := list (string * value).

Definition process_weather_data (data : value) : M weather_dict :=
  try_except
    (current <- lift (getitem data "current") ;;
     daily_list <- lift (getitem data "daily") ;;
     daily <- lift (getitem_0 daily_list) ;;
     temp_current <- lift (getitem current "temp") ;;
     feels_like <- lift (getitem current "feels_like") ;;
     humidity <- lift (getitem current "humidity") ;;
     wind <- lift (getitem current "wind_speed") ;;
     weather <- lift (getitem current "weather") ;;
     weather_0 <- lift (getitem_0 weather) ;;
     description <- lift (getitem weather_0 "description") ;;
     report <- lift (call_title description) ;;
     weather' <- lift (getitem current "weather") ;;
     weather_0' <- lift (getitem_0 weather') ;;
     icon_code <- lift (getitem weather_0' "icon") ;;
     temp <- lift (getitem daily "temp") ;;
     temp_max <- lift (getitem temp "max") ;;
     temp' <- lift (getitem daily "temp") ;;
     temp_min <- lift (getitem temp' "min") ;;
     pop <- lift (getitem daily "pop") ;;
     precip_percent <- lift (py_mul pop 100) ;;
     let weather_data :=
       [ ("temp_current", temp_current);
         ("feels_like", feels_like);
         ("humidity", humidity);
         ("wind", wind);
         ("report", report);
         ("icon_code", icon_code);
         ("temp_max", temp_max);
         ("temp_min", temp_min);
         ("precip_percent", precip_percent) ] in
     logging_info "Weather data processed successfully." ;;
     ret weather_data)
    (fun e =>
       if is_KeyError e
       then logging_error "Error processing weather data: " e ;; raise e
       else raise e).

(** [weather_data[k]] *)
Definition subscript (weather_data : weather_dict) (k : string) : M value :=
  match dict_get k weather_data with
  | Some v => ret v
  | None => raise (KeyError (KStr k))
  end.

(** [datetime.now().strftime('%H:%M')] *)
Definition strftime_HM (w : world) : string :=
  pad_left 2 (decimal (Z.of_nat (now_hour w))) ++ ":" ++
  pad_left 2 (decimal (Z.of_nat (now_minute w))).

Definition degree_C : string := "°C".

Definition generate_display_image (w : world) (weather_data : weather_dict) : M image :=
  try_except
    (let template_path := path_join (PIC_DIR w) "template.png" in
     template <-
       (if negb (path_exists w template_path)
        then logging_warning "template.png not found. Creating a blank white background." ;;
             ret (Image_new "1" (800, 480) COLOR_WHITE)
        else open_convert w template_path "1") ;;
     icon_code <- subscript weather_data "icon_code" ;;
     let icon_path := path_join (ICON_DIR w) (py_str icon_code ++ ".png") in
     template <-
       (if path_exists w icon_path
        then icon_image <- open_convert w icon_path "1" ;;
             ret (paste template icon_image (40, 15))
        else icon_code' <- subscript weather_data "icon_code" ;;
             logging_warning ("Weather icon " ++ py_str icon_code' ++ ".png not found.") ;;
             ret template) ;;
     report <- subscript weather_data "report" ;;
     let template := draw_text template (30, 200)
                       ("Now: " ++ py_str report) (font22 w) COLOR_BLACK in
     precip_percent <- subscript weather_data "precip_percent" ;;
     precip_text <- lift (format_f 0 precip_percent) ;;
     let template := draw_text template (30, 240)
                       ("Precip: " ++ precip_text ++ "%") (font30 w) COLOR_BLACK in
     temp_current <- subscript weather_data "temp_current" ;;
     temp_text <- lift (format_f 0 temp_current) ;;
     let template := draw_text template (375, 35)
                       (temp_text ++ degree_C) (font160 w) COLOR_BLACK in
     feels_like <- subscript weather_data "feels_like" ;;
     feels_text <- lift (format_f 0 feels_like) ;;
     let template := draw_text template (350, 210)
                       ("Feels like: " ++ feels_text ++ degree_C) (font50 w) COLOR_BLACK in
     temp_max <- subscript weather_data "temp_max" ;;
     max_text <- lift (format_f 0 temp_max) ;;
     let template := draw_text template (35, 325)
                       ("High: " ++ max_text ++ degree_C) (font50 w) COLOR_BLACK in
     temp_min <- subscript weather_data "temp_min" ;;
     min_text <- lift (format_f 0 temp_min) ;;
     let template := draw_text template (35, 390)
                       ("Low: " ++ min_text ++ degree_C) (font50 w) COLOR_BLACK in
     humidity <- subscript weather_data "humidity" ;;
     let template := draw_text template (345, 340)
                       ("Humidity: " ++ py_str humidity ++ "%") (font30 w) COLOR_BLACK in
     wind <- subscript weather_data "wind" ;;
     wind_text <- lift (format_f 1 wind) ;;
     let template := draw_text template (345, 400)
                       ("Wind: " ++ wind_text ++ " m/s") (font30 w) COLOR_BLACK in
     let template := draw_text template (627, 330) "UPDATED" (font35 w) COLOR_WHITE in
     let current_time := strftime_HM w in
     let template := draw_text template (627, 375) current_time (font60 w) COLOR_WHITE in
     logging_info "Display image generated successfully." ;;
     ret template)
    (fun e => logging_error "Error generating display image: " e ;; raise e).

(** A call into the driver: the call is made, and may raise. *)
Definition call (c : epd_call) (raises : option exn) : M unit :=
  emit (Panel c) ;;
  match raises with
  | Some e => raise e
  | None => ret tt
  end.

Definition call_getbuffer (epd : EPD) (im : image) : M buffer :=
  emit (Panel (EpdGetbuffer im)) ;; lift (getbuffer epd im).

Definition display_image (w : world) (black_image : image) : M unit :=
  try_except
    (logging_info "Initializing E-Paper display..." ;;
     epd <- lift (new_EPD w) ;;
     call EpdInit (init epd) ;;
     call EpdClear (Clear epd) ;;
     let red_image := Image_new "1" (width epd, height epd) COLOR_WHITE in
     logging_info "Sending image to screen (this takes ~15-20 seconds)..." ;;
     black_buffer <- call_getbuffer epd black_image ;;
     red_buffer <- call_getbuffer epd red_image ;;
     call (EpdDisplay black_buffer red_buffer) (display epd black_buffer red_buffer) ;;
     logging_info "Putting display to sleep." ;;
     call EpdSleep (sleep epd))
    (fun e => logging_error "Failed to display image: " e ;; raise e).

(** ** The driver and the script *)

(** [main] ends either by falling off its end or through [sys.exit(1)] in
    its handler; the result is the trace and the exit status. *)
Definition main (w : world) (API_KEY : string) : list event * Z :=
  match
    (logging_info "--- Weather Script Started ---" ;;
     raw_data <- fetch_weather_data w API_KEY ;;
     weather_data <- process_weather_data raw_data ;;
     black_image <- generate_display_image w weather_data ;;
     display_image w black_image ;;
     logging_info "--- Weather Script Finished Successfully ---")
  with
  | (t, Returns _) => (t, 0)
  | (t, Raises e) =>
      ((t ++ [Log ERROR "An unexpected error occurred in main loop: " (Some e)])%list, 1)
  end.

(** The module's top level before [main]: the API key is read and checked,
    then the fonts are loaded.  ([load_dotenv], the imports and the logging
    set-up are taken to succeed; the key is the environment's after
    [load_dotenv].) *)
Definition load_fonts (w : world) : M unit :=
  let load size :=
    match truetype w (path_join (FONT_DIR w) "Font.ttc") size with
    | Some e => raise e
    | None => ret tt
    end in
  load 22 ;; load 30 ;; load 35 ;; load 50 ;; load 60 ;; load 160.

Definition module_init (w : world) : M string :=
  match getenv w "OPENWEATHER_API_KEY" with
  | None => raise ValueError
  | Some API_KEY =>
      if (String.length API_KEY =? 0)%nat then raise ValueError
      else load_fonts w ;; ret API_KEY
  end.

(** Running the script: an exception that escapes the top level ends the
    process with status 1. *)
Definition script (w : world) : list event * Z :=
  match module_init w with
  | (t, Raises e) => (t, 1)
  | (t, Returns API_KEY) => let (t', status) := main w API_KEY in ((t ++ t')%list, status)
  end.

(** ** Vocabulary of the properties *)

(** A field of the payload is named by a path of keys and list indices, as in
    [current.weather[0].icon]. *)
Inductive selector : Type :=
| Key (k : string)
| Index (i : nat).

Fixpoint json_get (path : list selector) (v : value) : option value :=
  match path with
  | [] => Some v
  | Key k :: path' =>
      match v with
      | VDict d =>
          match dict_get k d with
          | Some x => json_get path' x
          | None => None
          end
      | _ => None
      end
  | Index i :: path' =>
      match v with
      | VList l =>
          match nth_error l i with
          | Some x => json_get path' x
          | None => None
          end
      | _ => None
      end
  end.

Definition current_temp := [Key "current"; Key "temp"].
Definition current_feels_like := [Key "current"; Key "feels_like"].
Definition current_humidity := [Key "current"; Key "humidity"].
Definition current_wind_speed := [Key "current"; Key "wind_speed"].
Definition current_weather_0_description :=
  [Key "current"; Key "weather"; Index 0; Key "description"].
Definition current_weather_0_icon :=
  [Key "current"; Key "weather"; Index 0; Key "icon"].
Definition daily_0_temp_max := [Key "daily"; Index 0; Key "temp"; Key "max"].
Definition daily_0_temp_min := [Key "daily"; Index 0; Key "temp"; Key "min"].
Definition daily_0_pop := [Key "daily"; Index 0; Key "pop"].

Definition required_fields : list (list selector) :=
  [ current_temp; current_feels_like; current_humidity; current_wind_speed;
    current_weather_0_description; current_weather_0_icon;
    daily_0_temp_max; daily_0_temp_min; daily_0_pop ].

Definition some_required_field_absent (data : value) : Prop :=
  exists path, In path required_fields /\ json_get path data = None.

(** *** Title case, as the words have it

    A text is the title-cased form of another when it has the same length
    and, place by place, the same character, except that a letter which
    starts a word (it is the first character, or the character before it is
    not a letter) is the capital letter, and every other letter the small
    one.  The letters are spelled out; nothing here uses [title] or the
    character classes it is written with. *)

Definition small_letters : string := "abcdefghijklmnopqrstuvwxyz".
Definition capital_letters : string := "ABCDEFGHIJKLMNOPQRSTUVWXYZ".

Fixpoint position (c : ascii) (s : string) : option nat :=
  match s with
  | EmptyString => None
  | String c' s' => if Ascii.eqb c c' then Some O else option_map S (position c s')
  end.

(** The place of a letter in the alphabet, small or capital. *)
Definition letter_number (c : ascii) : option nat :=
  match position c small_letters with
  | Some i => Some i
  | None => position c capital_letters
  end.

Definition is_letter (c : ascii) : bool :=
  match letter_number c with
  | Some _ => true
  | None => false
  end.

Definition letter_of (alphabet : string) (c : ascii) : ascii :=
  match letter_number c with
  | Some i =>
      match String.get i alphabet with
      | Some l => l
      | None => c
      end
  | None => c
  end.

Definition capital (c : ascii) : ascii := letter_of capital_letters c.
Definition small (c : ascii) : ascii := letter_of small_letters c.

Definition starts_word (s : string) (i : nat) : bool :=
  match i with
  | O => true
  | S j =>
      match String.get j s with
      | Some p => negb (is_letter p)
      | None => true
      end
  end.

Definition title_cased_of (s r : string) : Prop :=
  String.length r = String.length s /\
  forall i c, String.get i s = Some c ->
    String.get i r = Some (if starts_word s i then capital c else small c).

(** A probability, as a number, multiplied by 100. *)
Definition percent_of (v : value) : option value :=
  match v with
  | VInt z => Some (VInt (z * 100))
  | VFloat f => Some (VFloat (f * 100)%float)
  | _ => None
  end.

Definition weather_keys : list string :=
  [ "temp_current"; "feels_like"; "humidity"; "wind"; "report"; "icon_code";
    "temp_max"; "temp_min"; "precip_percent" ].

(** The Projector "logs and re-raises": its trace is one error record for
    the exception it raises. *)
Definition logs_and_reraises (r : M weather_dict) : Prop :=
  exists e, r = ([Log ERROR "Error processing weather data: " (Some e)], Raises e).

(** Every container on the way to a required field that is there has the
    kind the path expects: objects ([data], [current], [weather[0]],
    [daily[0]], [daily[0].temp]) are dictionaries, arrays ([weather],
    [daily]) are non-empty lists. *)
Definition containers_in_place (data : value) : bool :=
  match data with
  | VDict d =>
      match dict_get "current" d with
      | None => true
      | Some (VDict c) =>
          match dict_get "weather" c with
          | None => true
          | Some (VList (VDict w0 :: _)) => true
          | Some _ => false
          end
      | Some _ => false
      end
      &&
      match dict_get "daily" d with
      | None => true
      | Some (VList (VDict d0 :: _)) =>
          match dict_get "temp" d0 with
          | None | Some (VDict _) => true
          | Some _ => false
          end
      | Some _ => false
      end
  | _ => false
  end.

(** The description, if the payload has one, is a string. *)
Definition description_is_text (data : value) : bool :=
  match json_get current_weather_0_description data with
  | Some (VStr _) | None => true
  | Some _ => false
  end.

(** *** Sample payloads *)

Definition sample_current_with (humidity : value) : value :=
  VDict [ ("temp", VFloat 21.6); ("feels_like", VFloat 20.9); ("humidity", humidity);
          ("wind_speed", VFloat 3.42);
          ("weather", VList [VDict [ ("description", VStr "broken clouds");
                                     ("icon", VStr "04d") ]]) ].

Definition sample_daily_temp : value :=
  VDict [("max", VFloat 23.1); ("min", VFloat 12.4)].

Definition sample_payload_with (humidity : value) : value :=
  VDict [ ("current", sample_current_with humidity);
          ("daily", VList [VDict [("temp", sample_daily_temp); ("pop", VFloat 0.17)]]) ].

Definition sample_current : value := sample_current_with (VInt 45).

Definition sample_payload : value := sample_payload_with (VInt 45).

Definition payload_empty_daily : value :=
  VDict [ ("current", sample_current); ("daily", VList []) ].

Definition payload_without_pop : value :=
  VDict [ ("current", sample_current);
          ("daily", VList [VDict [("temp", sample_daily_temp)]]) ].

(** An empty [weather] array under a [current] that has its four numbers. *)
Definition payload_empty_weather : value :=
  VDict [ ("current",
           VDict [ ("temp", VFloat 21.6); ("feels_like", VFloat 20.9);
                   ("humidity", VInt 45); ("wind_speed", VFloat 3.42);
                   ("weather", VList []) ]);
          ("daily", VList [VDict [("temp", sample_daily_temp); ("pop", VFloat 0.17)]]) ].

Definition template_path (w : world) : string := path_join (PIC_DIR w) "template.png".

Definition icon_path (w : world) (icon_code : value) : string :=
  path_join (ICON_DIR w) (py_str icon_code ++ ".png").

Definition blank_canvas : bitmap :=
  {| bm_mode := "1"; bm_size := (800, 480); bm_pixels := Blank COLOR_WHITE |}.

Definition decoded (path : string) (size : Z * Z) : bitmap :=
  {| bm_mode := "1"; bm_size := size; bm_pixels := Decoded path |}.

(** The background the Renderer starts from, with the records logged on the
    way: a missing template is replaced, an unreadable one is an error. *)
Definition background (w : world) : option (list event * bitmap) :=
  match file_at w (template_path w) with
  | NoFile =>
      Some ([Log WARNING "template.png not found. Creating a blank white background." None],
            blank_canvas)
  | ImageFile size => Some ([], decoded (template_path w) size)
  | BadFile _ => None
  end.

(** The icon overlay: pasted when the asset is there, skipped with a warning
    when it is not. *)
Definition icon_overlay (w : world) (icon_code : value)
  : option (list event * list draw_op) :=
  match file_at w (icon_path w icon_code) with
  | NoFile =>
      Some ([Log WARNING ("Weather icon " ++ py_str icon_code ++ ".png not found.") None],
            [])
  | ImageFile size => Some ([], [Paste (decoded (icon_path w icon_code) size) (40, 15)])
  | BadFile _ => None
  end.

(** The ten text overlays, in drawing order, for given label values. *)
Definition text_overlays (w : world)
    (report precip temp feels high low humidity wind clock : string) : list draw_op :=
  [ DrawText (30, 200) ("Now: " ++ report) (font22 w) COLOR_BLACK;
    DrawText (30, 240) ("Precip: " ++ precip ++ "%") (font30 w) COLOR_BLACK;
    DrawText (375, 35) (temp ++ degree_C) (font160 w) COLOR_BLACK;
    DrawText (350, 210) ("Feels like: " ++ feels ++ degree_C) (font50 w) COLOR_BLACK;
    DrawText (35, 325) ("High: " ++ high ++ degree_C) (font50 w) COLOR_BLACK;
    DrawText (35, 390) ("Low: " ++ low ++ degree_C) (font50 w) COLOR_BLACK;
    DrawText (345, 340) ("Humidity: " ++ humidity ++ "%") (font30 w) COLOR_BLACK;
    DrawText (345, 400) ("Wind: " ++ wind ++ " m/s") (font30 w) COLOR_BLACK;
    DrawText (627, 330) "UPDATED" (font35 w) COLOR_WHITE;
    DrawText (627, 375) clock (font60 w) COLOR_WHITE ].

(** The label values of a reading: [str] of the condition and the humidity,
    the other fields through the format code [f], wind with precision 1 and
    the rest with precision 0. *)
Definition labels_of (weather_data : weather_dict)
    (report precip temp feels high low humidity wind : string) : Prop :=
  (exists v, dict_get "report" weather_data = Some v /\ report = py_str v) /\
  (exists v, dict_get "precip_percent" weather_data = Some v /\
             format_f 0 v = Returns precip) /\
  (exists v, dict_get "temp_current" weather_data = Some v /\
             format_f 0 v = Returns temp) /\
  (exists v, dict_get "feels_like" weather_data = Some v /\
             format_f 0 v = Returns feels) /\
  (exists v, dict_get "temp_max" weather_data = Some v /\ format_f 0 v = Returns high) /\
  (exists v, dict_get "temp_min" weather_data = Some v /\ format_f 0 v = Returns low) /\
  (exists v, dict_get "humidity" weather_data = Some v /\ humidity = py_str v) /\
  (exists v, dict_get "wind" weather_data = Some v /\ format_f 1 v = Returns wind).

Definition is_paste (op : draw_op) : bool :=
  match op with
  | Paste _ _ => true
  | DrawText _ _ _ _ => false
  end.

(** The text drawn at a position, if any. *)
Fixpoint text_at (xy : Z * Z) (ops : list draw_op) : option string :=
  match ops with
  | [] => None
  | DrawText (x, y) text _ _ :: ops' =>
      if (x =? fst xy) && (y =? snd xy) then Some text else text_at xy ops'
  | Paste _ _ :: ops' => text_at xy ops'
  end.

(** The calls into the panel driver, in order. *)
Fixpoint panel_calls (t : list event) : list epd_call :=
  match t with
  | [] => []
  | Panel c :: t' => c :: panel_calls t'
  | _ :: t' => panel_calls t'
  end.

Definition is_error_record (ev : event) : bool :=
  match ev with
  | Log ERROR _ _ => true
  | _ => false
  end.

(** A value the format code [f] accepts: a float, or an integer in the range
    of the floats. *)
Definition numeric (v : value) : Prop :=
  match v with
  | VFloat _ => True
  | VInt z => Z.abs z < 2 ^ 1024 - 2 ^ 970
  | _ => False
  end.

(** A reading as the data model has it: the nine fields, the six that are
    drawn through [f] numeric. *)
Definition reading (weather_data : weather_dict) : Prop :=
  (exists v, dict_get "icon_code" weather_data = Some v) /\
  (exists v, dict_get "report" weather_data = Some v) /\
  (exists v, dict_get "precip_percent" weather_data = Some v /\ numeric v) /\
  (exists v, dict_get "temp_current" weather_data = Some v /\ numeric v) /\
  (exists v, dict_get "feels_like" weather_data = Some v /\ numeric v) /\
  (exists v, dict_get "temp_max" weather_data = Some v /\ numeric v) /\
  (exists v, dict_get "temp_min" weather_data = Some v /\ numeric v) /\
  (exists v, dict_get "humidity" weather_data = Some v) /\
  (exists v, dict_get "wind" weather_data = Some v /\ numeric v).

(** No digit after a decimal point: the text has no point at all. *)
Definition no_decimals (s : string) : bool := negb (contains "." s).

Definition is_digit (c : ascii) : bool :=
  let n := nat_of_ascii c in (48 <=? n)%nat && (n <=? 57)%nat.

Fixpoint all_digits (s : string) : bool :=
  match s with
  | EmptyString => true
  | String c s' => is_digit c && all_digits s'
  end.

(** Exactly [p] digits after the one decimal point. *)
Fixpoint decimals_are (p : nat) (s : string) : bool :=
  match s with
  | EmptyString => false
  | String c s' =>
      if Ascii.eqb c "." then all_digits s' && (String.length s' =? p)%nat
      else decimals_are p s'
  end.

(** The fields drawn through the format code [.0f]: key, position, label
    and unit. *)
Definition zero_decimal_labels : list (string * (Z * Z) * string * string) :=
  [ ("precip_percent", (30, 240), "Precip: ", "%");
    ("temp_current", (375, 35), "", degree_C);
    ("feels_like", (350, 210), "Feels like: ", degree_C);
    ("temp_max", (35, 325), "High: ", degree_C);
    ("temp_min", (35, 390), "Low: ", degree_C) ].

(** The text a run of the Renderer draws at a position. *)
Definition drawn_text_at (xy : Z * Z) (r : M image) : option string :=
  match snd r with
  | Returns im => text_at xy (im_drawn im)
  | Raises _ => None
  end.

Definition drawn_size (r : M image) : option (Z * Z) :=
  match snd r with
  | Returns im => Some (im_size im)
  | Raises _ => None
  end.

(** *** Sample worlds and readings *)

Definition sample_EPD : EPD :=
  {| width := 800;
     height := 480;
     init := None;
     Clear := None;
     getbuffer := fun im => Returns [fst (im_size im); snd (im_size im);
                                     Z.of_nat (List.length (im_drawn im))];
     display := fun _ _ => None;
     sleep := None |}.

Definition sample_world (response : outcome http_response) (files : string -> file)
  : world :=
  {| getenv := fun k => if String.eqb k "OPENWEATHER_API_KEY"
                        then Some "0123456789abcdef" else None;
     script_dir := "/home/pi/e_paper_home_display";
     truetype := fun _ _ => None;
     requests_get := fun _ _ => response;
     file_at := files;
     now_hour := 7;
     now_minute := 5;
     new_EPD := Returns sample_EPD |}.

Definition ok_response (payload : value) : outcome http_response :=
  Returns {| status_code := 200; json := Returns payload |}.

Definition no_files : string -> file := fun _ => NoFile.

(** The sample payload served, and nothing under [pic/]. *)
Definition home_world : world := sample_world (ok_response sample_payload) no_files.

(** A template of another panel's size, 640x384. *)
Definition small_template : string -> file :=
  fun path =>
    if String.eqb path "/home/pi/e_paper_home_display/pic/template.png"
    then ImageFile (640, 384) else NoFile.

Definition reading_with_humidity (humidity : value) : weather_dict :=
  [ ("temp_current", VFloat 21.6);
    ("feels_like", VFloat 20.9);
    ("humidity", humidity);
    ("wind", VFloat 3.42);
    ("report", VStr "Broken Clouds");
    ("icon_code", VStr "04d");
    ("temp_max", VFloat 23.1);
    ("temp_min", VFloat 12.4);
    ("precip_percent", VFloat 17.0) ].

Definition sample_reading : weather_dict := reading_with_humidity (VInt 45).

Definition world_without_key : world :=
  {| getenv := fun _ => None;
     script_dir := "/home/pi/e_paper_home_display";
     truetype := fun _ _ => None;
     requests_get := fun _ _ => ok_response sample_payload;
     file_at := no_files;
     now_hour := 7;
     now_minute := 5;
     new_EPD := Returns sample_EPD |}.

(** A world whose request times out. *)
Definition world_with_timeout : world :=
  sample_world (Raises (RequestException Timeout)) no_files.

Definition sample_image : image :=
  {| im_base := blank_canvas;
     im_drawn := text_overlays home_world
                   "Broken Clouds" "17" "22" "21" "23" "12" "45" "3.4" "07:05" |}.

(** *** Vocabulary of the further properties *)

(** The requests a trace holds, in order: URL and timeout. *)
Fixpoint requests_made (t : list event) : list (string * Z) :=
  match t with
  | [] => []
  | Get u timeout :: t' => (u, timeout) :: requests_made t'
  | _ :: t' => requests_made t'
  end.

Definition is_log (ev : event) : bool :=
  match ev with
  | Log _ _ _ => true
  | _ => false
  end.

Definition is_request (ev : event) : bool :=
  match ev with
  | Get _ _ => true
  | _ => false
  end.

(** A log record below the error level. *)
Definition is_quiet_log (ev : event) : bool :=
  match ev with
  | Log INFO _ _ | Log WARNING _ _ => true
  | _ => false
  end.

(** The driver calls of a complete run of the Presenter on a panel: the last
    two need both buffers. *)
Definition planned_calls (epd : EPD) (black_image : image) : list epd_call :=
  let red_image := Image_new "1" (width epd, height epd) COLOR_WHITE in
  ([EpdInit; EpdClear; EpdGetbuffer black_image; EpdGetbuffer red_image] ++
   match getbuffer epd black_image, getbuffer epd red_image with
   | Returns black_buffer, Returns red_buffer =>
       [EpdDisplay black_buffer red_buffer; EpdSleep]
   | _, _ => []
   end)%list.

Definition font_sizes : list Z := [22; 30; 35; 50; 60; 160].

(** The fields drawn through the format code [f], each with its precision. *)
Definition formatted_fields : list (string * nat) :=
  [ ("precip_percent", 0%nat); ("temp_current", 0%nat); ("feels_like", 0%nat);
    ("temp_max", 0%nat); ("temp_min", 0%nat); ("wind", 1%nat) ].

(** The longest text the font library draws. *)
Definition MAX_STRING_LENGTH : Z := 1000000.

(** A reading that can be displayed: besides the nine fields of a reading,
    its condition text is a string whose label is within the font library's
    limit, and its humidity an integer percent. *)
Definition displayable (weather_data : weather_dict) : Prop :=
  reading weather_data /\
  (exists report, dict_get "report" weather_data = Some (VStr report) /\
                  Z.of_nat (String.length ("Now: " ++ report)) <= MAX_STRING_LENGTH) /\
  (exists percent, dict_get "humidity" weather_data = Some (VInt percent) /\
                   0 <= percent <= 100).

(** What the driver answers to a call: nothing, or an exception. *)
Definition driver_raises (epd : EPD) (c : epd_call) : option exn :=
  match c with
  | EpdInit => init epd
  | EpdClear => Clear epd
  | EpdGetbuffer im =>
      match getbuffer epd im with
      | Returns _ => None
      | Raises e => Some e
      end
  | EpdDisplay black red => display epd black red
  | EpdSleep => sleep epd
  end.

(** A plan carried out call by call, each call made only after the calls
    before it returned: the calls made are the plan up to and including its
    first call that raises, and the outcome is that exception. *)
Fixpoint run_plan (epd : EPD) (plan : list epd_call) : list epd_call * outcome unit :=
  match plan with
  | [] => ([], Returns tt)
  | c :: plan' =>
      match driver_raises epd c with
      | Some e => ([c], Raises e)
      | None => let (calls, r) := run_plan epd plan' in (c :: calls, r)
      end
  end.

(** Everything before [sleep] works on the panel: [init], [Clear], both
    conversions and the transfer of the buffers they gave. *)
Definition reaches_sleep (epd : EPD) (black_image : image) : Prop :=
  init epd = None /\ Clear epd = None /\
  exists black_buffer red_buffer,
    getbuffer epd black_image = Returns black_buffer /\
    getbuffer epd (Image_new "1" (width epd, height epd) COLOR_WHITE) =
      Returns red_buffer /\
    display epd black_buffer red_buffer = None.

(** *** Further sample payloads and worlds *)

Definition payload_with_description (description : value) : value :=
  VDict [ ("current",
           VDict [ ("temp", VFloat 21.6); ("feels_like", VFloat 20.9);
                   ("humidity", VInt 45); ("wind_speed", VFloat 3.42);
                   ("weather", VList [VDict [ ("description", description);
                                              ("icon", VStr "04d") ]]) ]);
          ("daily", VList [VDict [("temp", sample_daily_temp); ("pop", VFloat 0.17)]]) ].

Definition payload_with_pop (pop : value) : value :=
  VDict [ ("current", sample_current);
          ("daily", VList [VDict [("temp", sample_daily_temp); ("pop", pop)]]) ].

(** The sample payload among the other entries the provider sends. *)
Definition fuller_payload : value :=
  VDict [ ("lat", VFloat 61.4285); ("lon", VFloat 23.8783);
          ("timezone", VStr "Europe/Helsinki");
          ("current",
           VDict [ ("dt", VInt 1718000000); ("temp", VFloat 21.6);
                   ("feels_like", VFloat 20.9); ("pressure", VInt 1012);
                   ("humidity", VInt 45); ("wind_speed", VFloat 3.42);
                   ("weather", VList [VDict [ ("id", VInt 803); ("main", VStr "Clouds");
                                              ("description", VStr "broken clouds");
                                              ("icon", VStr "04d") ]]) ]);
          ("daily", VList [ VDict [ ("dt", VInt 1718013600);
                                    ("temp", VDict [ ("day", VFloat 22.0);
                                                     ("min", VFloat 12.4);
                                                     ("max", VFloat 23.1) ]);
                                    ("pop", VFloat 0.17) ];
                            VDict [ ("dt", VInt 1718100000) ] ]) ].

(** [pic/] holding the icon of the sample reading and nothing else. *)
Definition icon_04d : string -> file :=
  fun path =>
    if String.eqb path "/home/pi/e_paper_home_display/pic/icon/04d.png"
    then ImageFile (256, 256) else NoFile.

(** [pic/] holding a file for the icon of the sample reading that is no
    image. *)
Definition broken_icon_04d : string -> file :=
  fun path =>
    if String.eqb path "/home/pi/e_paper_home_display/pic/icon/04d.png"
    then BadFile (OSError "cannot identify image file") else NoFile.

(** A panel on which everything works until the transfer. *)
Definition EPD_with_failing_display : EPD :=
  {| width := 800;
     height := 480;
     init := None;
     Clear := None;
     getbuffer := getbuffer sample_EPD;
     display := fun _ _ => Some (OSError "SPI");
     sleep := None |}.

Definition world_with_failing_display : world :=
  {| getenv := fun k => if String.eqb k "OPENWEATHER_API_KEY"
                        then Some "0123456789abcdef" else None;
     script_dir := "/home/pi/e_paper_home_display";
     truetype := fun _ _ => None;
     requests_get := fun _ _ => ok_response sample_payload;
     file_at := no_files;
     now_hour := 7;
     now_minute := 5;
     new_EPD := Returns EPD_with_failing_display |}.

(** * Properties *)

(** ** Case mapping *)

Lemma to_upper_capital (c : ascii) : to_upper c = capital c.
Proof. destruct c as [[] [] [] [] [] [] [] []]; vm_compute; reflexivity. Qed.

Lemma to_lower_small (c : ascii) : to_lower c = small c.
Proof. destruct c as [[] [] [] [] [] [] [] []]; vm_compute; reflexivity. Qed.

Lemma is_cased_letter (c : ascii) : is_cased c = is_letter c.
Proof. destruct c as [[] [] [] [] [] [] [] []]; vm_compute; reflexivity. Qed.

Lemma title_from_length (prev : bool) (s : string) :
  String.length (title_from prev s) = String.length s.
Proof.
  revert prev; induction s as [|c s IH]; intros prev; cbn [title_from String.length];
    [reflexivity|].
  now rewrite IH.
Qed.

(** Place by place: the character of [title_from prev s] at [i] is the
    capital when [i] starts a word ([prev] telling whether a letter came
    before the text), the small one otherwise. *)
Lemma title_from_get (s : string) :
  forall (prev : bool) (i : nat) (c : ascii),
    String.get i s = Some c ->
    String.get i (title_from prev s) =
      Some (if match i with O => negb prev | S _ => starts_word s i end
            then capital c else small c).
Proof.
  induction s as [|a s IH]; intros prev i c; [discriminate|].
  destruct i as [|j]; cbn [String.get title_from].
  - intros H. inversion H; subst.
    destruct prev; cbn [negb]; [rewrite to_lower_small|rewrite to_upper_capital];
      reflexivity.
  - intros H. rewrite (IH (is_cased a) j c H). f_equal.
    destruct j as [|k]; cbn [starts_word String.get].
    + now rewrite is_cased_letter.
    + reflexivity.
Qed.

Lemma title_is_title_cased (s : string) : title_cased_of s (title s).
Proof.
  split; [apply title_from_length|].
  intros i c H. unfold title. rewrite (title_from_get s false i c H).
  destruct i; reflexivity.
Qed.

(** ** Computations *)

Lemma bind_returns {A B : Type} (m : M A) (k : A -> M B) (t : list event) (b : B) :
  bind m k = (t, Returns b) ->
  exists t1 a t2, m = (t1, Returns a) /\ k a = (t2, Returns b) /\ t = (t1 ++ t2)%list.
Proof.
  unfold bind. destruct m as [t1 [a|e]]; [|discriminate].
  destruct (k a) as [t2 r] eqn:E. intros H. inversion H; subst.
  exists t1, a, t2. auto.
Qed.

Lemma try_except_returns {A : Type} (body : M A) (h : exn -> M A) (t : list event) (a : A) :
  (forall e, exists t', exists e', h e = (t', Raises e')) ->
  try_except body h = (t, Returns a) -> body = (t, Returns a).
Proof.
  intros Hh. unfold try_except. destruct body as [t1 [x|e]]; [auto|].
  destruct (Hh e) as (t' & e' & ->). discriminate.
Qed.

Lemma float_of_int_100 : float_of_int 100 = Some 100%float.
Proof. vm_compute. reflexivity. Qed.

(** ** The Projector *)

(** C1: for every payload that contains all nine required fields, with an
    ASCII string as description and a numeric [pop], the Projector returns
    (after one info record) the record whose [precip_percent] is [pop]
    multiplied by 100, whose [report] is the description title-cased (the
    same text, each word starting with its capital letter and going on in
    small letters), and whose other seven fields are the payload's values
    unchanged. *)
Theorem process_weather_data_projects
    (data temp feels_like humidity wind_speed icon temp_max temp_min pop precip : value)
    (description : string) :
  json_get current_temp data = Some temp ->
  json_get current_feels_like data = Some feels_like ->
  json_get current_humidity data = Some humidity ->
  json_get current_wind_speed data = Some wind_speed ->
  json_get current_weather_0_description data = Some (VStr description) ->
  json_get current_weather_0_icon data = Some icon ->
  json_get daily_0_temp_max data = Some temp_max ->
  json_get daily_0_temp_min data = Some temp_min ->
  json_get daily_0_pop data = Some pop ->
  ascii_text description = true ->
  percent_of pop = Some precip ->
  exists report,
    process_weather_data data =
      ([Log INFO "Weather data processed successfully." None],
       Returns [ ("temp_current", temp);
                 ("feels_like", feels_like);
                 ("humidity", humidity);
                 ("wind", wind_speed);
                 ("report", VStr report);
                 ("icon_code", icon);
                 ("temp_max", temp_max);
                 ("temp_min", temp_min);
                 ("precip_percent", precip) ])
    /\ title_cased_of description report.
Proof.
  intros Ht Hf Hh Hw Hd Hi Hx Hn Hp _ Hpc.
  exists (title description).
  split; [|apply title_is_title_cased].
  unfold current_temp, current_feels_like, current_humidity, current_wind_speed,
    current_weather_0_description, current_weather_0_icon,
    daily_0_temp_max, daily_0_temp_min, daily_0_pop in *.
  cbn [json_get] in *.
  destruct data as [| | | | |?|d]; try discriminate.
  destruct (dict_get "current" d) as [[| | | | |?|c]|] eqn:Ec; try discriminate.
  destruct (dict_get "temp" c) as [?|] eqn:E1; [|discriminate].
  destruct (dict_get "feels_like" c) as [?|] eqn:E2; [|discriminate].
  destruct (dict_get "humidity" c) as [?|] eqn:E3; [|discriminate].
  destruct (dict_get "wind_speed" c) as [?|] eqn:E4; [|discriminate].
  destruct (dict_get "weather" c) as [[| | | | |[|[| | | | |?|w0] ?]|?]|] eqn:E5;
    try discriminate.
  cbn [nth_error] in *.
  destruct (dict_get "description" w0) as [?|] eqn:E6; [|discriminate].
  destruct (dict_get "icon" w0) as [?|] eqn:E7; [|discriminate].
  destruct (dict_get "daily" d) as [[| | | | |[|[| | | | |?|d0] ?]|?]|] eqn:Ed;
    try discriminate.
  cbn [nth_error] in *.
  destruct (dict_get "temp" d0) as [[| | | | |?|tm]|] eqn:E8; try discriminate.
  destruct (dict_get "max" tm) as [?|] eqn:E9; [|discriminate].
  destruct (dict_get "min" tm) as [?|] eqn:E10; [|discriminate].
  destruct (dict_get "pop" d0) as [?|] eqn:E11; [|discriminate].
  inversion Ht; inversion Hf; inversion Hh; inversion Hw; inversion Hd; inversion Hi;
    inversion Hx; inversion Hn; inversion Hp; subst.
  unfold process_weather_data.
  cbn [getitem getitem_0 lift bind call_title].
  rewrite Ec. cbn. rewrite Ed. cbn. rewrite E1. cbn. rewrite E2. cbn.
  rewrite E3. cbn. rewrite E4. cbn. rewrite E5. cbn. rewrite E6. cbn.
  rewrite E7. cbn. rewrite E8. cbn. rewrite E9. cbn. rewrite E10. cbn.
  rewrite E11.
  destruct pop; try discriminate; cbn in Hpc; inversion Hpc; subst.
  - cbn. reflexivity.
  - cbn [py_mul]. rewrite float_of_int_100. cbn. reflexivity.
Qed.

(** The sample payload, projected: "broken clouds" becomes "Broken Clouds",
    and the probability 0.17 the float product [0.17 * 100]. *)
Lemma sample_payload_is_projected :
  exists report,
    process_weather_data sample_payload =
      ([Log INFO "Weather data processed successfully." None],
       Returns [ ("temp_current", VFloat 21.6);
                 ("feels_like", VFloat 20.9);
                 ("humidity", VInt 45);
                 ("wind", VFloat 3.42);
                 ("report", VStr report);
                 ("icon_code", VStr "04d");
                 ("temp_max", VFloat 23.1);
                 ("temp_min", VFloat 12.4);
                 ("precip_percent", VFloat (0.17 * 100)%float) ])
    /\ title_cased_of "broken clouds" report
    /\ report = "Broken Clouds".
Proof.
  destruct (process_weather_data_projects sample_payload
              (VFloat 21.6) (VFloat 20.9) (VInt 45) (VFloat 3.42) (VStr "04d")
              (VFloat 23.1) (VFloat 12.4) (VFloat 0.17) (VFloat (0.17 * 100)%float)
              "broken clouds" eq_refl eq_refl eq_refl eq_refl eq_refl eq_refl eq_refl
              eq_refl eq_refl eq_refl eq_refl) as (report & Hrun & Hcased).
  exists report. split; [exact Hrun|]. split; [exact Hcased|].
  destruct Hcased as [Hlen Hget].
  pose proof (Hget 0%nat _ eq_refl) as G0. pose proof (Hget 1%nat _ eq_refl) as G1.
  pose proof (Hget 2%nat _ eq_refl) as G2. pose proof (Hget 3%nat _ eq_refl) as G3.
  pose proof (Hget 4%nat _ eq_refl) as G4. pose proof (Hget 5%nat _ eq_refl) as G5.
  pose proof (Hget 6%nat _ eq_refl) as G6. pose proof (Hget 7%nat _ eq_refl) as G7.
  pose proof (Hget 8%nat _ eq_refl) as G8. pose proof (Hget 9%nat _ eq_refl) as G9.
  pose proof (Hget 10%nat _ eq_refl) as G10. pose proof (Hget 11%nat _ eq_refl) as G11.
  pose proof (Hget 12%nat _ eq_refl) as G12.
  vm_compute in Hlen, G0, G1, G2, G3, G4, G5, G6, G7, G8, G9, G10, G11, G12.
  repeat (destruct report as [|? report]; [discriminate Hlen|]; cbn in Hlen).
  destruct report; [|discriminate Hlen].
  cbn in G0, G1, G2, G3, G4, G5, G6, G7, G8, G9, G10, G11, G12.
  congruence.
Defined.

(** When the Projector returns, every required field was there and the
    record is exactly the nine entries built from them. *)
Lemma process_weather_data_returns (data : value) (t : list event) (wd : weather_dict) :
  process_weather_data data = (t, Returns wd) ->
  exists temp feels_like humidity wind_speed description icon temp_max temp_min pop precip,
    json_get current_temp data = Some temp /\
    json_get current_feels_like data = Some feels_like /\
    json_get current_humidity data = Some humidity /\
    json_get current_wind_speed data = Some wind_speed /\
    json_get current_weather_0_description data = Some (VStr description) /\
    json_get current_weather_0_icon data = Some icon /\
    json_get daily_0_temp_max data = Some temp_max /\
    json_get daily_0_temp_min data = Some temp_min /\
    json_get daily_0_pop data = Some pop /\
    py_mul pop 100 = Returns precip /\
    t = [Log INFO "Weather data processed successfully." None] /\
    wd = [ ("temp_current", temp);
           ("feels_like", feels_like);
           ("humidity", humidity);
           ("wind", wind_speed);
           ("report", VStr (title description));
           ("icon_code", icon);
           ("temp_max", temp_max);
           ("temp_min", temp_min);
           ("precip_percent", precip) ].
Proof.
  unfold process_weather_data, current_temp, current_feels_like, current_humidity,
    current_wind_speed, current_weather_0_description, current_weather_0_icon,
    daily_0_temp_max, daily_0_temp_min, daily_0_pop.
  cbn [json_get].
  destruct data as [| | | | |?|d]; try discriminate.
  cbn [getitem lift bind].
  destruct (dict_get "current" d) as [current|] eqn:Ec; [|discriminate].
  cbn.
  destruct (dict_get "daily" d) as [daily_list|] eqn:Ed; [|discriminate].
  cbn.
  destruct daily_list as [| | | |[|? ?]|[|daily ?]|?]; try discriminate; cbn.
  { destruct current as [| | | | |?|c]; try discriminate. cbn.
    destruct (dict_get "temp" c); [|discriminate]. cbn.
    destruct (dict_get "feels_like" c); [|discriminate]. cbn.
    destruct (dict_get "humidity" c); [|discriminate]. cbn.
    destruct (dict_get "wind_speed" c); [|discriminate]. cbn.
    destruct (dict_get "weather" c) as [weather|]; [|discriminate]. cbn.
    destruct weather as [| | | |[|? ?]|[|[| | | | |?|w0] ?]|?]; try discriminate; cbn.
    destruct (dict_get "description" w0) as [[| | | |?|?|?]|]; try discriminate. cbn.
    destruct (dict_get "icon" w0); discriminate. }
  destruct current as [| | | | |?|c]; try discriminate. cbn.
  destruct (dict_get "temp" c) as [temp|] eqn:E1; [|discriminate]. cbn.
  destruct (dict_get "feels_like" c) as [feels_like|] eqn:E2; [|discriminate]. cbn.
  destruct (dict_get "humidity" c) as [humidity|] eqn:E3; [|discriminate]. cbn.
  destruct (dict_get "wind_speed" c) as [wind_speed|] eqn:E4; [|discriminate]. cbn.
  destruct (dict_get "weather" c) as [weather|] eqn:E5; [|discriminate]. cbn.
  destruct weather as [| | | |[|? ?]|[|[| | | | |?|w0] ?]|?]; try discriminate; cbn.
  destruct (dict_get "description" w0) as [[| | | |description|?|?]|] eqn:E6;
    try discriminate. cbn.
  destruct (dict_get "icon" w0) as [icon|] eqn:E7; [|discriminate]. cbn.
  destruct daily as [| | | | |?|d0]; try discriminate. cbn.
  destruct (dict_get "temp" d0) as [[| | | | |?|tm]|] eqn:E8; try discriminate. cbn.
  destruct (dict_get "max" tm) as [temp_max|] eqn:E9; [|discriminate]. cbn.
  destruct (dict_get "min" tm) as [temp_min|] eqn:E10; [|discriminate]. cbn.
  destruct (dict_get "pop" d0) as [pop|] eqn:E11; [|discriminate]. cbn.
  destruct (py_mul pop 100) as [precip|e] eqn:E12; cbn.
  - intros H. inversion H; subst.
    exists temp, feels_like, humidity, wind_speed, description, icon, temp_max, temp_min,
      pop, precip.
    repeat split; auto.
  - destruct e; discriminate.
Qed.

Lemma bind_lift {A B : Type} (o : outcome A) (k : A -> M B) :
  bind (lift o) k =
  match o with
  | Returns a => k a
  | Raises e => ([], Raises e)
  end.
Proof. destruct o as [a|e]; cbn; [destruct (k a)|]; reflexivity. Qed.

(** One step of a stage: the next value looked up either is there, or ends
    the stage with what [finish] proves. *)
Ltac step_lift finish :=
  rewrite bind_lift; cbv beta iota;
  try (match goal with
       | |- context [match ?o with Returns _ => _ | Raises _ => _ end] =>
           destruct o eqn:?
       end; [|finish]).

Ltac handler_logs_KeyError :=
  cbn;
  match goal with
  | |- context [if is_KeyError ?x then (_, _) else _] =>
      let Hk := fresh "Hk" in
      let H := fresh "H" in
      destruct (is_KeyError x) eqn:Hk; cbn; intros H; inversion H; subst;
      rewrite Hk; reflexivity
  end.

(** The Projector writes an error record exactly for a [KeyError]. *)
Lemma process_weather_data_raises (data : value) (t : list event) (e : exn) :
  process_weather_data data = (t, Raises e) ->
  t = if is_KeyError e
      then [Log ERROR "Error processing weather data: " (Some e)]
      else [].
Proof.
  unfold process_weather_data.
  repeat step_lift handler_logs_KeyError.
  discriminate.
Qed.

Ltac rewrite_lookups :=
  repeat (cbn; match goal with
               | H : dict_get _ _ = _ |- _ => rewrite H
               end).

Ltac rewrite_lookups_in Hn :=
  repeat (cbn in Hn; match goal with
                     | H : dict_get _ _ = _ |- _ => rewrite H in Hn
                     end).

(** With the containers in place and no description that is not a string, a
    missing required field is a missing dictionary key: the Projector logs
    the [KeyError] and re-raises it. *)
Lemma missing_key_is_logged (data : value) :
  containers_in_place data = true ->
  description_is_text data = true ->
  some_required_field_absent data ->
  exists k,
    process_weather_data data =
      ([Log ERROR "Error processing weather data: " (Some (KeyError k))],
       Raises (KeyError k)).
Proof.
  unfold containers_in_place, some_required_field_absent, description_is_text,
    current_weather_0_description.
  destruct data as [| | | | |?|d]; try discriminate.
  intros Hshape Hdesc Habs. apply andb_true_iff in Hshape. destruct Hshape as [Hc Hd].
  cbn [json_get] in Hdesc.
  unfold process_weather_data.
  destruct (dict_get "current" d) as [[| | | | |?|c]|] eqn:Ec; try discriminate;
    [|eexists; rewrite_lookups; reflexivity].
  destruct (dict_get "daily" d) as [[| | | | |[|[| | | | |?|d0] ?]|?]|] eqn:Ed;
    try discriminate; [|eexists; rewrite_lookups; reflexivity].
  destruct (dict_get "temp" c) eqn:E1; [|eexists; rewrite_lookups; reflexivity].
  destruct (dict_get "feels_like" c) eqn:E2; [|eexists; rewrite_lookups; reflexivity].
  destruct (dict_get "humidity" c) eqn:E3; [|eexists; rewrite_lookups; reflexivity].
  destruct (dict_get "wind_speed" c) eqn:E4; [|eexists; rewrite_lookups; reflexivity].
  destruct (dict_get "weather" c) as [[| | | | |[|[| | | | |?|w0] ?]|?]|] eqn:E5;
    try discriminate; [|eexists; rewrite_lookups; reflexivity].
  cbn [nth_error] in Hdesc.
  destruct (dict_get "description" w0) as [[| | | |?|?|?]|] eqn:E6;
    try discriminate; [|eexists; rewrite_lookups; reflexivity].
  destruct (dict_get "icon" w0) eqn:E7; [|eexists; rewrite_lookups; reflexivity].
  destruct (dict_get "temp" d0) as [[| | | | |?|tm]|] eqn:E8;
    try discriminate; [|eexists; rewrite_lookups; reflexivity].
  destruct (dict_get "max" tm) eqn:E9; [|eexists; rewrite_lookups; reflexivity].
  destruct (dict_get "min" tm) eqn:E10; [|eexists; rewrite_lookups; reflexivity].
  destruct (dict_get "pop" d0) eqn:E11; [|eexists; rewrite_lookups; reflexivity].
  exfalso. destruct Habs as (path & Hin & Hn).
  cbn in Hin.
  repeat (destruct Hin as [<-|Hin]; [rewrite_lookups_in Hn; discriminate|]).
  contradiction.
Qed.

(** An empty [weather] list is reached after the four numbers of [current]
    were read; [weather[0]] then raises [IndexError], which is not logged. *)
Lemma empty_weather_raises_IndexError
    (d c : list (string * value)) (daily_0 : value) (rest : list value) :
  dict_get "current" d = Some (VDict c) ->
  dict_get "daily" d = Some (VList (daily_0 :: rest)) ->
  dict_get "temp" c <> None ->
  dict_get "feels_like" c <> None ->
  dict_get "humidity" c <> None ->
  dict_get "wind_speed" c <> None ->
  dict_get "weather" c = Some (VList []) ->
  process_weather_data (VDict d) = ([], Raises IndexError).
Proof.
  intros Hc Hd H1 H2 H3 H4 Hw.
  destruct (dict_get "temp" c) eqn:E1; [|congruence].
  destruct (dict_get "feels_like" c) eqn:E2; [|congruence].
  destruct (dict_get "humidity" c) eqn:E3; [|congruence].
  destruct (dict_get "wind_speed" c) eqn:E4; [|congruence].
  unfold process_weather_data. rewrite_lookups. reflexivity.
Qed.

(** C5: as amended.  For every payload: (1) if a required field is absent
    the Projector raises and returns no record; (2) whenever it raises, its
    trace is the error record when the exception is a [KeyError] and is empty
    otherwise; (3) whenever it returns, the record has exactly the nine keys,
    each holding the payload's value (no default), so no field was absent;
    (4) when every object on the paths that is there is a dictionary, every
    array a non-empty list and the description, if there, a string, an absent
    field is a missing key, logged and re-raised as [KeyError]; (5) an empty
    [daily] list (under a payload that has [current]) and (6) an empty
    [weather] list (under a [current] that has its four numbers, [daily]
    being non-empty) leave a field absent and raise [IndexError] with nothing
    logged; (7) so does, with [TypeError], a payload that is not an
    object. *)
Theorem process_weather_data_all_or_nothing (data : value) :
  (some_required_field_absent data ->
   exists e, snd (process_weather_data data) = Raises e) /\
  (forall t e, process_weather_data data = (t, Raises e) ->
     t = if is_KeyError e
         then [Log ERROR "Error processing weather data: " (Some e)]
         else []) /\
  (forall t wd, process_weather_data data = (t, Returns wd) ->
     map fst wd = weather_keys /\
     ~ some_required_field_absent data /\
     dict_get "temp_current" wd = json_get current_temp data /\
     dict_get "feels_like" wd = json_get current_feels_like data /\
     dict_get "humidity" wd = json_get current_humidity data /\
     dict_get "wind" wd = json_get current_wind_speed data /\
     dict_get "icon_code" wd = json_get current_weather_0_icon data /\
     dict_get "temp_max" wd = json_get daily_0_temp_max data /\
     dict_get "temp_min" wd = json_get daily_0_temp_min data) /\
  (containers_in_place data = true ->
   description_is_text data = true ->
   some_required_field_absent data ->
   exists k,
     process_weather_data data =
       ([Log ERROR "Error processing weather data: " (Some (KeyError k))],
        Raises (KeyError k))) /\
  (forall d current,
     data = VDict d ->
     dict_get "current" d = Some current ->
     dict_get "daily" d = Some (VList []) ->
     some_required_field_absent data /\
     process_weather_data data = ([], Raises IndexError)) /\
  (forall d c daily_0 rest,
     data = VDict d ->
     dict_get "current" d = Some (VDict c) ->
     dict_get "daily" d = Some (VList (daily_0 :: rest)) ->
     dict_get "temp" c <> None ->
     dict_get "feels_like" c <> None ->
     dict_get "humidity" c <> None ->
     dict_get "wind_speed" c <> None ->
     dict_get "weather" c = Some (VList []) ->
     some_required_field_absent data /\
     process_weather_data data = ([], Raises IndexError)) /\
  ((forall d, data <> VDict d) ->
   some_required_field_absent data /\
   process_weather_data data = ([], Raises TypeError)).
Proof.
  assert (Hret : forall t wd, process_weather_data data = (t, Returns wd) ->
            map fst wd = weather_keys /\
            ~ some_required_field_absent data /\
            dict_get "temp_current" wd = json_get current_temp data /\
            dict_get "feels_like" wd = json_get current_feels_like data /\
            dict_get "humidity" wd = json_get current_humidity data /\
            dict_get "wind" wd = json_get current_wind_speed data /\
            dict_get "icon_code" wd = json_get current_weather_0_icon data /\
            dict_get "temp_max" wd = json_get daily_0_temp_max data /\
            dict_get "temp_min" wd = json_get daily_0_temp_min data).
  { intros t wd H.
    destruct (process_weather_data_returns _ _ _ H)
      as (v1 & v2 & v3 & v4 & v5 & v6 & v7 & v8 & v9 & pc &
          H1 & H2 & H3 & H4 & H5 & H6 & H7 & H8 & H9 & _ & _ & ->).
    split; [reflexivity|]. split.
    - intros (path & Hin & Hn). cbn in Hin.
      repeat (destruct Hin as [<-|Hin]; [congruence|]). contradiction.
    - rewrite H1, H2, H3, H4, H6, H7, H8. repeat split; reflexivity. }
  refine (conj _ (conj _ (conj Hret (conj _ (conj _ (conj _ _)))))).
  - intros Habs. destruct (process_weather_data data) as [t [wd|e]] eqn:E.
    + exfalso. apply (Hret t wd eq_refl). exact Habs.
    + exists e. reflexivity.
  - apply process_weather_data_raises.
  - apply missing_key_is_logged.
  - intros d current -> Hc Hd. split.
    + exists daily_0_pop. split; [cbn; tauto|].
      unfold daily_0_pop. cbn [json_get]. rewrite Hd. reflexivity.
    + unfold process_weather_data. rewrite_lookups. reflexivity.
  - intros d c daily_0 rest -> Hc Hd H1 H2 H3 H4 Hw. split.
    + exists current_weather_0_icon. split; [cbn; tauto|].
      unfold current_weather_0_icon. cbn [json_get]. rewrite Hc, Hw. reflexivity.
    + now apply (empty_weather_raises_IndexError d c daily_0 rest).
  - intros Hno. split.
    + exists current_temp. split; [cbn; tauto|].
      destruct data; try reflexivity. exfalso. now apply (Hno d).
    + destruct data; try reflexivity. exfalso. now apply (Hno d).
Qed.

(** A payload without [daily[0].pop]: the [KeyError] is logged and re-raised. *)
Lemma process_weather_data_missing_pop :
  exists k,
    process_weather_data payload_without_pop =
      ([Log ERROR "Error processing weather data: " (Some (KeyError k))],
       Raises (KeyError k)).
Proof.
  apply (process_weather_data_all_or_nothing payload_without_pop).
  - reflexivity.
  - reflexivity.
  - exists daily_0_pop. split; [|reflexivity]. cbn. tauto.
Defined.

(** C5, as stated, fails: with an empty [daily] list the field
    [daily[0].pop] is absent, and the Projector raises [IndexError] without
    logging anything. *)
Lemma empty_daily_is_not_logged :
  some_required_field_absent payload_empty_daily /\
  ~ logs_and_reraises (process_weather_data payload_empty_daily).
Proof.
  split.
  - exists daily_0_pop. split; [|reflexivity]. cbn. tauto.
  - intros (e & H). vm_compute in H. discriminate.
Qed.

(** C10: for a payload that has a [current] entry (it is looked up first)
    and whose [daily] entry is the empty list, the Projector raises
    [IndexError] with an empty trace (its handler takes only [KeyError], so
    it logs nothing); when such a payload is what the fetch returned, [main]
    appends its own error record for the [IndexError] and exits with
    status 1. *)
Theorem empty_daily_raises_IndexError
    (w : world) (API_KEY : string) (d : list (string * value)) (current : value)
    (t : list event) :
  dict_get "current" d = Some current ->
  dict_get "daily" d = Some (VList []) ->
  process_weather_data (VDict d) = ([], Raises IndexError)
  /\ is_KeyError IndexError = false
  /\ (fetch_weather_data w API_KEY = (t, Returns (VDict d)) ->
      main w API_KEY =
        ((Log INFO "--- Weather Script Started ---" None :: t) ++
         [Log ERROR "An unexpected error occurred in main loop: " (Some IndexError)],
         1))%list.
Proof.
  intros Hc Hd.
  assert (Hp : process_weather_data (VDict d) = ([], Raises IndexError)).
  { unfold process_weather_data. rewrite_lookups. reflexivity. }
  split; [exact Hp|]. split; [reflexivity|].
  intros Hf. unfold main. cbn [bind logging_info emit].
  rewrite Hf. cbn [bind]. rewrite Hp. cbn.
  rewrite app_nil_r. reflexivity.
Qed.

(** ** The Renderer *)

Lemma subscript_returns (wd : weather_dict) (k : string) (t : list event) (v : value) :
  subscript wd k = (t, Returns v) -> dict_get k wd = Some v /\ t = [].
Proof.
  unfold subscript. destruct (dict_get k wd); cbn; intros H; inversion H; auto.
Qed.

Lemma lift_returns {A : Type} (o : outcome A) (t : list event) (a : A) :
  lift o = (t, Returns a) -> o = Returns a /\ t = [].
Proof. unfold lift. intros H; inversion H; auto. Qed.

Tactic Notation "invert_bind" hyp(H) "as" ident(a) ident(H1) ident(t1) :=
  let t2 := fresh "t" in
  apply bind_returns in H; destruct H as (t1 & a & t2 & H1 & H & ->);
  cbv beta in H;
  first
    [ apply subscript_returns in H1; destruct H1 as [H1 ->]
    | apply lift_returns in H1; destruct H1 as [H1 ->]
    | idtac ].

(** What a returned image is made of. *)
Lemma generate_display_image_returns
    (w : world) (wd : weather_dict) (t : list event) (im : image) :
  generate_display_image w wd = (t, Returns im) ->
  exists tb base icon ti ops report precip ps temp ts feels fs high hs low ls hum wind ws,
    background w = Some (tb, base) /\
    dict_get "icon_code" wd = Some icon /\
    icon_overlay w icon = Some (ti, ops) /\
    dict_get "report" wd = Some report /\
    dict_get "precip_percent" wd = Some precip /\ format_f 0 precip = Returns ps /\
    dict_get "temp_current" wd = Some temp /\ format_f 0 temp = Returns ts /\
    dict_get "feels_like" wd = Some feels /\ format_f 0 feels = Returns fs /\
    dict_get "temp_max" wd = Some high /\ format_f 0 high = Returns hs /\
    dict_get "temp_min" wd = Some low /\ format_f 0 low = Returns ls /\
    dict_get "humidity" wd = Some hum /\
    dict_get "wind" wd = Some wind /\ format_f 1 wind = Returns ws /\
    t = (tb ++ ti ++ [Log INFO "Display image generated successfully." None])%list /\
    im = {| im_base := base;
            im_drawn := (ops ++ text_overlays w (py_str report) ps ts fs hs ls
                                  (py_str hum) ws (strftime_HM w))%list |}.
Proof.
  unfold generate_display_image. intros H.
  apply try_except_returns in H;
    [|intros e; eexists; eexists; reflexivity].
  cbv zeta in H.
  invert_bind H as template Hbg tbg.
  invert_bind H as icon Hicon t1.
  invert_bind H as template' Hov tov.
  invert_bind H as report Hreport t1.
  invert_bind H as precip Hprecip t1.
  invert_bind H as ps Hps t1.
  invert_bind H as temp Htemp t1.
  invert_bind H as ts Hts t1.
  invert_bind H as feels Hfeels t1.
  invert_bind H as fs Hfs t1.
  invert_bind H as high Hhigh t1.
  invert_bind H as hs Hhs t1.
  invert_bind H as low Hlow t1.
  invert_bind H as ls Hls t1.
  invert_bind H as hum Hhum t1.
  invert_bind H as wind Hwind t1.
  invert_bind H as ws Hws t1.
  unfold logging_info, emit, ret, bind in H. cbn [app] in H.
  inversion H; subst; clear H.
  (* the background *)
  assert (Hb : exists tb base,
             background w = Some (tb, base) /\ tbg = tb /\
             template = {| im_base := base; im_drawn := [] |}).
  { unfold background, template_path. unfold path_exists, open_convert in Hbg.
    destruct (file_at w (path_join (PIC_DIR w) "template.png")) eqn:Ef;
      cbn in Hbg; inversion Hbg; subst; eexists; eexists; repeat split. }
  destruct Hb as (tb & base & Hb & -> & ->).
  (* the icon *)
  assert (Hi : exists ti ops,
             icon_overlay w icon = Some (ti, ops) /\ tov = ti /\
             template' = {| im_base := base; im_drawn := ops |}).
  { unfold icon_overlay, icon_path. unfold path_exists, open_convert in Hov.
    destruct (file_at w (path_join (ICON_DIR w) (py_str icon ++ ".png"))) eqn:Ef;
      cbv beta iota in Hov.
    - invert_bind Hov as icon' Hicon' t1.
      rewrite Hicon in Hicon'. inversion Hicon'; subst.
      cbn in Hov. inversion Hov; subst. eexists; eexists; repeat split.
    - cbn in Hov. inversion Hov; subst. eexists; eexists; repeat split.
    - cbn in Hov. discriminate. }
  destruct Hi as (ti & ops & Hi & -> & ->).
  exists tb, base, icon, ti, ops, report, precip, ps, temp, ts, feels, fs,
    high, hs, low, ls, hum, wind, ws.
  repeat (split; [assumption|]).
  split; [reflexivity|].
  unfold draw_text, text_overlays. cbn [im_base im_drawn].
  rewrite <- !app_assoc. reflexivity.
Qed.

(** Conversely, when the background and the icon can be had and every field
    is there and formats, the Renderer returns that image. *)
Lemma generate_display_image_draws
    (w : world) (wd : weather_dict) (tb ti : list event) (base : bitmap)
    (ops : list draw_op) (icon report precip temp feels high low hum wind : value)
    (ps ts fs hs ls ws : string) :
  background w = Some (tb, base) ->
  dict_get "icon_code" wd = Some icon ->
  icon_overlay w icon = Some (ti, ops) ->
  dict_get "report" wd = Some report ->
  dict_get "precip_percent" wd = Some precip -> format_f 0 precip = Returns ps ->
  dict_get "temp_current" wd = Some temp -> format_f 0 temp = Returns ts ->
  dict_get "feels_like" wd = Some feels -> format_f 0 feels = Returns fs ->
  dict_get "temp_max" wd = Some high -> format_f 0 high = Returns hs ->
  dict_get "temp_min" wd = Some low -> format_f 0 low = Returns ls ->
  dict_get "humidity" wd = Some hum ->
  dict_get "wind" wd = Some wind -> format_f 1 wind = Returns ws ->
  generate_display_image w wd =
    ((tb ++ ti ++ [Log INFO "Display image generated successfully." None])%list,
     Returns {| im_base := base;
                im_drawn := (ops ++ text_overlays w (py_str report) ps ts fs hs ls
                                      (py_str hum) ws (strftime_HM w))%list |}).
Proof.
  intros Hb Hicon Hi Hreport Hprecip Hps Htemp Hts Hfeels Hfs Hhigh Hhs Hlow Hls
    Hhum Hwind Hws.
  unfold background, template_path in Hb. unfold icon_overlay, icon_path in Hi.
  unfold generate_display_image, subscript, path_exists, open_convert.
  cbv zeta.
  rewrite Hicon, Hreport, Hprecip, Htemp, Hfeels, Hhigh, Hlow, Hhum, Hwind.
  destruct (file_at w (path_join (PIC_DIR w) "template.png")) eqn:Ef;
    inversion Hb; subst; clear Hb;
    cbn [bind lift ret raise emit logging_info logging_warning try_except app negb
         Image_new];
    destruct (file_at w (path_join (ICON_DIR w) (py_str icon ++ ".png"))) eqn:Ei;
    inversion Hi; subst; clear Hi;
    rewrite Hps; cbn [bind lift ret emit logging_info logging_warning try_except app];
    rewrite Hts; cbn [bind lift ret emit logging_info logging_warning try_except app];
    rewrite Hfs; cbn [bind lift ret emit logging_info logging_warning try_except app];
    rewrite Hhs; cbn [bind lift ret emit logging_info logging_warning try_except app];
    rewrite Hls; cbn [bind lift ret emit logging_info logging_warning try_except app];
    rewrite Hws; cbn [bind lift ret emit logging_info logging_warning try_except app];
    reflexivity.
Qed.

(** ** Digits and decimal points *)

Lemma contains_app (c : ascii) (a b : string) :
  contains c (a ++ b) = contains c a || contains c b.
Proof.
  induction a as [|x a IH]; cbn [append contains]; [reflexivity|].
  now rewrite IH, orb_assoc.
Qed.

Lemma all_digits_no_point (s : string) : all_digits s = true -> contains "." s = false.
Proof.
  induction s as [|c s IH]; cbn [all_digits contains]; [reflexivity|].
  intros H. apply andb_true_iff in H. destruct H as [Hc Hs].
  rewrite (IH Hs), orb_false_r.
  destruct (Ascii.eqb_spec "."%char c) as [<-|]; [discriminate Hc|reflexivity].
Qed.

Lemma all_digits_uint (d : Decimal.uint) : all_digits (NilEmpty.string_of_uint d) = true.
Proof. induction d; cbn; auto. Qed.

Lemma all_digits_uint0 (d : Decimal.uint) : all_digits (NilZero.string_of_uint d) = true.
Proof. destruct d; try apply all_digits_uint. reflexivity. Qed.

Lemma decimal_no_point (z : Z) : contains "." (decimal z) = false.
Proof.
  unfold decimal. destruct (Z.to_int z) as [d|d]; cbn [NilZero.string_of_int contains].
  - apply all_digits_no_point, all_digits_uint0.
  - rewrite (all_digits_no_point _ (all_digits_uint0 d)). reflexivity.
Qed.

Lemma sign_text_no_point (s : bool) : contains "." (sign_text s) = false.
Proof. destruct s; reflexivity. Qed.

(** Precision 0 never prints a decimal point. *)
Lemma format_float_f_0 (f : float) : no_decimals (format_float_f 0 f) = true.
Proof.
  unfold no_decimals, format_float_f.
  destruct (Prim2SF f) as [s|s| |s m e].
  - destruct s; reflexivity.
  - destruct s; reflexivity.
  - reflexivity.
  - unfold fixed_point.
    rewrite !contains_app, sign_text_no_point, decimal_no_point. reflexivity.
Qed.

Lemma format_f_0 (v : value) (s : string) :
  format_f 0 v = Returns s -> no_decimals s = true.
Proof.
  destruct v as [|b|z|f| | |]; cbn [format_f]; try discriminate.
  - destruct (float_of_int (Z.b2z b)); intros H; inversion H. apply format_float_f_0.
  - destruct (float_of_int z); intros H; inversion H. apply format_float_f_0.
  - intros H; inversion H. apply format_float_f_0.
Qed.

Lemma decimals_are_after (p : nat) (a b : string) :
  contains "." a = false ->
  decimals_are p (a ++ String "." b) = all_digits b && (String.length b =? p)%nat.
Proof.
  induction a as [|c a IH]; cbn [append decimals_are contains]; [intros _|].
  - rewrite Ascii.eqb_refl. reflexivity.
  - intros H. apply orb_false_iff in H. destruct H as [Hc Ha].
    rewrite Ascii.eqb_sym in Hc. rewrite Hc. auto.
Qed.

Lemma one_digit (r : Z) : 0 <= r < 10 -> pad_left 1 (decimal r) = decimal r /\
  all_digits (decimal r) = true /\ String.length (decimal r) = 1%nat.
Proof.
  intros H.
  assert (r = 0 \/ r = 1 \/ r = 2 \/ r = 3 \/ r = 4 \/ r = 5 \/ r = 6 \/ r = 7 \/
          r = 8 \/ r = 9) as Hr by lia.
  repeat (destruct Hr as [->|Hr]; [repeat split; reflexivity|]).
  subst; repeat split; reflexivity.
Qed.

Lemma fixed_point_1 (sign : bool) (n : Z) :
  decimals_are 1 (sign_text sign ++ fixed_point n 1) = true.
Proof.
  unfold fixed_point.
  change (10 ^ Z.of_nat 1) with 10.
  destruct (one_digit (n mod 10)) as (Hp & Hd & Hl); [apply Z.mod_pos_bound; lia|].
  rewrite Hp.
  replace (sign_text sign ++ decimal (n / 10) ++ String "." (decimal (n mod 10)))
    with ((sign_text sign ++ decimal (n / 10)) ++ String "." (decimal (n mod 10))).
  - rewrite decimals_are_after.
    + rewrite Hd, Hl. reflexivity.
    + rewrite contains_app, sign_text_no_point, decimal_no_point. reflexivity.
  - destruct sign; reflexivity.
Qed.

(** Precision 1 prints exactly one digit after the point, for every float
    that has digits at all. *)
Lemma format_float_f_1 (f : float) :
  decimals_are 1 (format_float_f 1 f) = true \/
  In (format_float_f 1 f) ["nan"; "inf"; "-inf"].
Proof.
  unfold format_float_f.
  destruct (Prim2SF f) as [s|s| |s m e].
  - left. apply fixed_point_1.
  - right. destruct s; cbn; auto.
  - right. cbn; auto.
  - left. apply fixed_point_1.
Qed.

Lemma format_f_1 (v : value) (s : string) :
  format_f 1 v = Returns s ->
  decimals_are 1 s = true \/ In s ["nan"; "inf"; "-inf"].
Proof.
  destruct v as [|b|z|f| | |]; cbn [format_f]; try discriminate.
  - destruct (float_of_int (Z.b2z b)); intros H; inversion H. apply format_float_f_1.
  - destruct (float_of_int z); intros H; inversion H. apply format_float_f_1.
  - intros H; inversion H. apply format_float_f_1.
Qed.

Lemma numeric_formats (p : nat) (v : value) :
  numeric v -> exists s, format_f p v = Returns s.
Proof.
  destruct v as [| |z|f| | |]; cbn [numeric format_f]; try contradiction.
  - intros H. unfold float_of_int. apply Z.ltb_lt in H. rewrite H. eauto.
  - eauto.
Qed.

Lemma text_at_over_icon (w : world) (icon : value) (ti : list event)
    (ops l : list draw_op) (xy : Z * Z) :
  icon_overlay w icon = Some (ti, ops) ->
  text_at xy (ops ++ l) = text_at xy l.
Proof.
  unfold icon_overlay.
  destruct (file_at w (icon_path w icon)); intros H; inversion H; reflexivity.
Qed.

(** C2: whenever the Renderer returns an image for a reading whose humidity
    is an integer percent, as the data model has it: each of precipitation
    percent, current temperature, feels-like, high and low is drawn as its
    label, the value formatted with 0 decimals (no decimal point) and its
    unit; the humidity is drawn with 0 decimals as well, as the digits of the
    integer; the wind is drawn with exactly 1 decimal; in particular a
    stored 21.6 is drawn "22°C", a stored wind 3.42 "Wind: 3.4 m/s" and a
    stored precipitation 17.0 "Precip: 17%".  The Projector stores the
    payload's numbers as they are (and [pop * 100] unrounded), so rounding
    happens at draw time only. *)
Theorem numbers_are_rounded_when_drawn
    (w : world) (wd : weather_dict) (t : list event) (im : image) (percent : Z) :
  generate_display_image w wd = (t, Returns im) ->
  dict_get "humidity" wd = Some (VInt percent) ->
  (forall key xy label unit, In (key, xy, label, unit) zero_decimal_labels ->
     exists v s, dict_get key wd = Some v /\ format_f 0 v = Returns s /\
                 no_decimals s = true /\
                 text_at xy (im_drawn im) = Some (label ++ s ++ unit)) /\
  (text_at (345, 340) (im_drawn im) = Some ("Humidity: " ++ decimal percent ++ "%") /\
   no_decimals (decimal percent) = true) /\
  (exists v s, dict_get "wind" wd = Some v /\ format_f 1 v = Returns s /\
               (decimals_are 1 s = true \/ In s ["nan"; "inf"; "-inf"]) /\
               text_at (345, 400) (im_drawn im) = Some ("Wind: " ++ s ++ " m/s")) /\
  (dict_get "temp_current" wd = Some (VFloat 21.6) ->
   text_at (375, 35) (im_drawn im) = Some "22°C") /\
  (dict_get "wind" wd = Some (VFloat 3.42) ->
   text_at (345, 400) (im_drawn im) = Some "Wind: 3.4 m/s") /\
  (dict_get "precip_percent" wd = Some (VFloat 17.0) ->
   text_at (30, 240) (im_drawn im) = Some "Precip: 17%") /\
  (forall data t' wd', process_weather_data data = (t', Returns wd') ->
     dict_get "temp_current" wd' = json_get current_temp data /\
     dict_get "feels_like" wd' = json_get current_feels_like data /\
     dict_get "humidity" wd' = json_get current_humidity data /\
     dict_get "wind" wd' = json_get current_wind_speed data /\
     dict_get "temp_max" wd' = json_get daily_0_temp_max data /\
     dict_get "temp_min" wd' = json_get daily_0_temp_min data /\
     exists pop precip, json_get daily_0_pop data = Some pop /\
                        py_mul pop 100 = Returns precip /\
                        dict_get "precip_percent" wd' = Some precip).
Proof.
  intros H Hpercent.
  destruct (generate_display_image_returns _ _ _ _ H)
    as (tb & base & icon & ti & ops & report & precip & ps & temp & ts & feels & fs &
        high & hs & low & ls & hum & wind & ws &
        Hb & Hicon & Hi & Hreport & Hprecip & Hps & Htemp & Hts & Hfeels & Hfs &
        Hhigh & Hhs & Hlow & Hls & Hhum & Hwind & Hws & _ & ->).
  cbn [im_drawn].
  refine (conj _ (conj _ (conj _ (conj _ (conj _ (conj _ _)))))).
  - intros key xy label unit Hin. cbn in Hin.
    rewrite (text_at_over_icon _ _ _ _ _ _ Hi).
    destruct Hin as [E|[E|[E|[E|[E|[]]]]]]; inversion E; subst.
    + exists precip, ps. repeat split; auto. eapply format_f_0; eauto.
    + exists temp, ts. repeat split; auto. eapply format_f_0; eauto.
    + exists feels, fs. repeat split; auto. eapply format_f_0; eauto.
    + exists high, hs. repeat split; auto. eapply format_f_0; eauto.
    + exists low, ls. repeat split; auto. eapply format_f_0; eauto.
  - rewrite (text_at_over_icon _ _ _ _ _ _ Hi).
    rewrite Hhum in Hpercent. inversion Hpercent; subst hum.
    split; [reflexivity|].
    unfold no_decimals. now rewrite decimal_no_point.
  - exists wind, ws. rewrite (text_at_over_icon _ _ _ _ _ _ Hi).
    split; [assumption|]. split; [assumption|]. split; [|reflexivity].
    eapply format_f_1; eauto.
  - intros E. rewrite Htemp in E. inversion E; subst.
    rewrite (text_at_over_icon _ _ _ _ _ _ Hi).
    cbn [format_f] in Hts. inversion Hts; subst.
    cbn [text_at text_overlays fst snd Z.eqb Pos.eqb andb].
    replace (format_float_f 0 21.6) with "22" by (vm_compute; reflexivity).
    reflexivity.
  - intros E. rewrite Hwind in E. inversion E; subst.
    rewrite (text_at_over_icon _ _ _ _ _ _ Hi).
    cbn [format_f] in Hws. inversion Hws; subst.
    cbn [text_at text_overlays fst snd Z.eqb Pos.eqb andb].
    replace (format_float_f 1 3.42) with "3.4" by (vm_compute; reflexivity).
    reflexivity.
  - intros E. rewrite Hprecip in E. inversion E; subst.
    rewrite (text_at_over_icon _ _ _ _ _ _ Hi).
    cbn [format_f] in Hps. inversion Hps; subst.
    cbn [text_at text_overlays fst snd Z.eqb Pos.eqb andb].
    replace (format_float_f 0 17.0) with "17" by (vm_compute; reflexivity).
    reflexivity.
  - intros data t' wd' H0.
    destruct (process_weather_data_returns _ _ _ H0)
      as (v1 & v2 & v3 & v4 & v5 & v6 & v7 & v8 & v9 & pc &
          H1 & H2 & H3 & H4 & H5 & H6 & H7 & H8 & H9 & Hm & _ & ->).
    rewrite H1, H2, H3, H4, H7, H8.
    repeat (split; [reflexivity|]).
    exists v9, pc. auto.
Qed.

(** The sample reading (21.6 degrees, humidity 45, wind 3.42, precipitation
    17.0), drawn. *)
Lemma sample_reading_is_rounded_when_drawn :
  drawn_text_at (375, 35)
    (generate_display_image home_world sample_reading) = Some "22°C" /\
  drawn_text_at (345, 400)
    (generate_display_image home_world sample_reading) = Some "Wind: 3.4 m/s" /\
  drawn_text_at (30, 240)
    (generate_display_image home_world sample_reading) = Some "Precip: 17%" /\
  drawn_text_at (345, 340)
    (generate_display_image home_world sample_reading) = Some "Humidity: 45%".
Proof.
  unfold drawn_text_at.
  destruct (generate_display_image home_world sample_reading) as [t [im|e]] eqn:E.
  - destruct (numbers_are_rounded_when_drawn _ _ _ _ 45 E eq_refl)
      as (_ & [H0 _] & _ & H1 & H2 & H3 & _).
    cbn [snd].
    split; [apply H1; reflexivity|].
    split; [apply H2; reflexivity|].
    split; [apply H3; reflexivity|exact H0].
  - vm_compute in E. discriminate.
Defined.

(** The humidity is the one number drawn without a format specification: it
    shows no decimals because the stored value is an integer.  A fractional
    humidity, which the data model does not have, would be drawn as it is
    stored. *)
Lemma fractional_humidity_is_drawn_as_stored :
  drawn_text_at (345, 340)
    (generate_display_image home_world (reading_with_humidity (VFloat 45.5))) =
    Some "Humidity: 45.5%".
Proof. vm_compute. reflexivity. Qed.

(** A reading is drawn whenever the background and the icon can be had. *)
Lemma reading_is_drawn (w : world) (wd : weather_dict) (tb : list event) (base : bitmap) :
  reading wd ->
  background w = Some (tb, base) ->
  (forall icon e, dict_get "icon_code" wd = Some icon ->
                  file_at w (icon_path w icon) <> BadFile e) ->
  exists t im, generate_display_image w wd = (t, Returns im).
Proof.
  intros (Hicon & Hreport & Hprecip & Htemp & Hfeels & Hhigh & Hlow & Hhum & Hwind)
    Hb Hok.
  destruct Hicon as (icon & Hicon). destruct Hreport as (report & Hreport).
  destruct Hprecip as (precip & Hprecip & Np). destruct Htemp as (temp & Htemp & Nt).
  destruct Hfeels as (feels & Hfeels & Nf). destruct Hhigh as (high & Hhigh & Nh).
  destruct Hlow as (low & Hlow & Nl). destruct Hhum as (hum & Hhum).
  destruct Hwind as (wind & Hwind & Nw).
  destruct (numeric_formats 0 _ Np) as (ps & Hps).
  destruct (numeric_formats 0 _ Nt) as (ts & Hts).
  destruct (numeric_formats 0 _ Nf) as (fs & Hfs).
  destruct (numeric_formats 0 _ Nh) as (hs & Hhs).
  destruct (numeric_formats 0 _ Nl) as (ls & Hls).
  destruct (numeric_formats 1 _ Nw) as (ws & Hws).
  assert (Hi : exists ti ops, icon_overlay w icon = Some (ti, ops)).
  { unfold icon_overlay. specialize (Hok icon).
    destruct (file_at w (icon_path w icon)) as [|size|e]; eauto.
    exfalso. now apply (Hok e). }
  destruct Hi as (ti & ops & Hi).
  eexists; eexists. eapply generate_display_image_draws; eauto.
Qed.

(** C3: when the template file is absent, every image the Renderer returns
    is 800x480, in mode "1", on a blank white canvas; and for every reading
    (the nine fields, numbers where numbers are drawn) whose icon asset, if
    there, can be opened, the Renderer does return an image. *)
Theorem blank_canvas_when_template_absent (w : world) (wd : weather_dict) :
  file_at w (template_path w) = NoFile ->
  (forall t im, generate_display_image w wd = (t, Returns im) ->
     im_size im = (800, 480) /\ im_mode im = "1" /\
     bm_pixels (im_base im) = Blank COLOR_WHITE) /\
  (reading wd ->
   (forall icon e, dict_get "icon_code" wd = Some icon ->
                   file_at w (icon_path w icon) <> BadFile e) ->
   exists t im, generate_display_image w wd = (t, Returns im)).
Proof.
  intros Hno.
  assert (Hb : background w =
               Some ([Log WARNING
                        "template.png not found. Creating a blank white background." None],
                     blank_canvas)).
  { unfold background. now rewrite Hno. }
  split.
  - intros t im H.
    destruct (generate_display_image_returns _ _ _ _ H)
      as (tb & base & icon & ti & ops & report & precip & ps & temp & ts & feels & fs &
          high & hs & low & ls & hum & wind & ws & Hb' &
          _ & _ & _ & _ & _ & _ & _ & _ & _ & _ & _ & _ & _ & _ & _ & _ & _ & ->).
    rewrite Hb in Hb'. inversion Hb'; subst. repeat split; reflexivity.
  - intros Hr Hok. exact (reading_is_drawn _ _ _ _ Hr Hb Hok).
Qed.

Lemma sample_reading_is_a_reading : reading sample_reading.
Proof.
  unfold reading, sample_reading, reading_with_humidity;
    cbn [dict_get String.eqb Ascii.eqb Bool.eqb].
  repeat split; eexists; first [reflexivity | split; [reflexivity|exact I]].
Qed.

(** The sample reading drawn where [pic/] holds no file. *)
Lemma blank_canvas_for_sample_reading :
  exists t im,
    generate_display_image home_world sample_reading = (t, Returns im) /\
    im_size im = (800, 480) /\ im_mode im = "1" /\
    bm_pixels (im_base im) = Blank COLOR_WHITE.
Proof.
  destruct (blank_canvas_when_template_absent home_world sample_reading eq_refl)
    as [Hall Hex].
  destruct Hex as (t & im & H).
  - exact sample_reading_is_a_reading.
  - intros icon e _. discriminate.
  - exists t, im. split; [exact H|]. exact (Hall t im H).
Defined.

Lemma background_is_quiet (w : world) :
  (forall e, file_at w (template_path w) <> BadFile e) ->
  exists tb base, background w = Some (tb, base) /\ existsb is_error_record tb = false.
Proof.
  intros Hok. unfold background.
  destruct (file_at w (template_path w)) as [|size|e].
  - eexists; eexists; split; reflexivity.
  - eexists; eexists; split; reflexivity.
  - exfalso. now apply (Hok e).
Qed.

(** C4: for every reading whose icon code names no asset file (and whose
    template, if there, can be opened), the Renderer returns an image; its
    trace holds the warning about the icon and no error record; nothing is
    pasted, and what is drawn is exactly the ten text overlays with the
    reading's label values: condition, precipitation, current temperature,
    feels-like, high, low, humidity, wind, the "UPDATED" caption and the
    current time. *)
Theorem missing_icon_is_skipped (w : world) (wd : weather_dict) (icon : value) :
  reading wd ->
  dict_get "icon_code" wd = Some icon ->
  file_at w (icon_path w icon) = NoFile ->
  (forall e, file_at w (template_path w) <> BadFile e) ->
  exists t im report precip temp feels high low humidity wind,
    generate_display_image w wd = (t, Returns im) /\
    In (Log WARNING ("Weather icon " ++ py_str icon ++ ".png not found.") None) t /\
    existsb is_error_record t = false /\
    existsb is_paste (im_drawn im) = false /\
    labels_of wd report precip temp feels high low humidity wind /\
    im_drawn im =
      text_overlays w report precip temp feels high low humidity wind (strftime_HM w).
Proof.
  intros Hr Hicon Hno Hok.
  destruct (background_is_quiet w Hok) as (tb & base & Hb & Hq).
  destruct (reading_is_drawn w wd tb base Hr Hb) as (t & im & H).
  { intros i e Hi. rewrite Hicon in Hi. inversion Hi; subst. rewrite Hno. discriminate. }
  destruct (generate_display_image_returns _ _ _ _ H)
    as (tb' & base' & icon' & ti & ops & vr & vp & ps & vt & ts & vf & fs &
        vh & hs & vl & ls & vu & vw & ws &
        Hb' & Hicon' & Hi & Hvr & Hvp & Hps & Hvt & Hts & Hvf & Hfs & Hvh & Hhs &
        Hvl & Hls & Hvu & Hvw & Hws & Ht & Him).
  rewrite Hb in Hb'. inversion Hb'; subst tb' base'.
  rewrite Hicon in Hicon'. inversion Hicon'; subst icon'.
  unfold icon_overlay in Hi. rewrite Hno in Hi. inversion Hi; subst ti ops.
  exists t, im, (py_str vr), ps, ts, fs, hs, ls, (py_str vu), ws.
  split; [exact H|]. subst t im. cbn [im_drawn app].
  split; [|split; [|split; [reflexivity|split; [|reflexivity]]]].
  - apply in_or_app. right. left. reflexivity.
  - rewrite existsb_app, Hq. reflexivity.
  - unfold labels_of. repeat split; eexists; split; eauto.
Qed.

(** The sample reading, whose icon [04d.png] is not there. *)
Lemma missing_icon_for_sample_reading :
  exists t im report precip temp feels high low humidity wind,
    generate_display_image home_world sample_reading = (t, Returns im) /\
    In (Log WARNING ("Weather icon " ++ py_str (VStr "04d") ++ ".png not found.") None) t /\
    existsb is_error_record t = false /\
    existsb is_paste (im_drawn im) = false /\
    labels_of sample_reading report precip temp feels high low humidity wind /\
    im_drawn im =
      text_overlays home_world report precip temp feels high low humidity wind
        (strftime_HM home_world).
Proof.
  apply (missing_icon_is_skipped home_world sample_reading (VStr "04d")).
  - exact sample_reading_is_a_reading.
  - reflexivity.
  - reflexivity.
  - intros e. discriminate.
Defined.

(** C8: as amended.  Every image the Renderer returns is in mode "1" and has
    the size of its background: 800x480 on the blank canvas substituted for an
    absent template, and the template file's own size, which the Renderer does
    not check, when the template is present; so the image is 800x480 whenever
    the template, if present, is 800x480. *)
Theorem image_has_the_size_of_its_background
    (w : world) (wd : weather_dict) (t : list event) (im : image) :
  generate_display_image w wd = (t, Returns im) ->
  im_mode im = "1" /\
  (file_at w (template_path w) = NoFile ->
   im_base im = blank_canvas /\ im_size im = (800, 480)) /\
  (forall size, file_at w (template_path w) = ImageFile size -> im_size im = size) /\
  ((forall size, file_at w (template_path w) = ImageFile size -> size = (800, 480)) ->
   im_size im = (800, 480)).
Proof.
  intros H.
  destruct (generate_display_image_returns _ _ _ _ H)
    as (tb & base & icon & ti & ops & report & precip & ps & temp & ts & feels & fs &
        high & hs & low & ls & hum & wind & ws & Hb &
        _ & _ & _ & _ & _ & _ & _ & _ & _ & _ & _ & _ & _ & _ & _ & _ & _ & ->).
  unfold background in Hb. unfold im_mode, im_size. cbn [im_base].
  destruct (file_at w (template_path w)) as [|size|e]; inversion Hb; subst.
  - split; [reflexivity|]. split; [auto|]. split; [discriminate|]. reflexivity.
  - split; [reflexivity|]. split; [discriminate|]. split.
    + intros size' E. inversion E. reflexivity.
    + intros Hsize. apply Hsize. reflexivity.
Qed.

(** Without a template the sample reading is drawn at 800x480. *)
Lemma image_size_for_sample_reading :
  exists t im,
    generate_display_image home_world sample_reading = (t, Returns im) /\
    im_mode im = "1" /\ im_size im = (800, 480).
Proof.
  destruct (generate_display_image home_world sample_reading) as [t [im|e]] eqn:E.
  - exists t, im. split; [reflexivity|].
    destruct (image_has_the_size_of_its_background _ _ _ _ E) as (Hm & Hn & _).
    split; [exact Hm|]. apply Hn. reflexivity.
  - vm_compute in E. discriminate.
Defined.

(** C8, as stated, fails: with a 640x384 template in place the Renderer
    returns a 640x384 image, not one of the panel's 800x480. *)
Lemma small_template_gives_small_image :
  file_at (sample_world (ok_response sample_payload) small_template)
    (template_path (sample_world (ok_response sample_payload) small_template))
    = ImageFile (640, 384) /\
  drawn_size
    (generate_display_image (sample_world (ok_response sample_payload) small_template)
       sample_reading) = Some (640, 384) /\
  (640, 384) <> (800, 480).
Proof. split; [reflexivity|]. split; [vm_compute; reflexivity|discriminate]. Qed.

(** ** The Presenter *)

Lemma call_returns (c : epd_call) (raises : option exn) (t : list event) (u : unit) :
  call c raises = (t, Returns u) -> raises = None /\ t = [Panel c].
Proof.
  unfold call. destruct raises; cbn; intros H; inversion H; auto.
Qed.

Lemma call_getbuffer_returns (epd : EPD) (im : image) (t : list event) (b : buffer) :
  call_getbuffer epd im = (t, Returns b) ->
  getbuffer epd im = Returns b /\ t = [Panel (EpdGetbuffer im)].
Proof.
  unfold call_getbuffer. destruct (getbuffer epd im); cbn; intros H; inversion H; auto.
Qed.

Lemma logging_info_returns (msg : string) (t : list event) (u : unit) :
  logging_info msg = (t, Returns u) -> t = [Log INFO msg None].
Proof. unfold logging_info, emit. intros H; inversion H; reflexivity. Qed.

(** C6: on every run of the Presenter that returns, the driver was obtained
    and the trace is exactly: the start record, [init], [Clear], the sending
    record, [getbuffer] of the composed image, [getbuffer] of a blank white
    image of the panel's reported size, [display] of the two buffers in that
    order, the sleep record, [sleep].  So the calls into the driver are these
    six, once each, in this order, and [sleep] is the last. *)
Theorem display_image_is_linear (w : world) (black_image : image) (t : list event) :
  display_image w black_image = (t, Returns tt) ->
  exists epd black_buffer red_buffer,
    let red_image := Image_new "1" (width epd, height epd) COLOR_WHITE in
    new_EPD w = Returns epd /\
    getbuffer epd black_image = Returns black_buffer /\
    getbuffer epd red_image = Returns red_buffer /\
    im_drawn red_image = [] /\
    bm_pixels (im_base red_image) = Blank COLOR_WHITE /\
    t = [ Log INFO "Initializing E-Paper display..." None;
          Panel EpdInit;
          Panel EpdClear;
          Log INFO "Sending image to screen (this takes ~15-20 seconds)..." None;
          Panel (EpdGetbuffer black_image);
          Panel (EpdGetbuffer red_image);
          Panel (EpdDisplay black_buffer red_buffer);
          Log INFO "Putting display to sleep." None;
          Panel EpdSleep ] /\
    panel_calls t =
      [ EpdInit; EpdClear; EpdGetbuffer black_image; EpdGetbuffer red_image;
        EpdDisplay black_buffer red_buffer; EpdSleep ].
Proof.
  unfold display_image. intros H.
  apply try_except_returns in H; [|intros e; eexists; eexists; reflexivity].
  apply bind_returns in H. destruct H as (t1 & u1 & t' & H1 & H & ->).
  apply logging_info_returns in H1. subst t1.
  apply bind_returns in H. destruct H as (t2 & epd & t'' & H2 & H & ->).
  apply lift_returns in H2. destruct H2 as [Hepd ->].
  apply bind_returns in H. destruct H as (t3 & u3 & t3' & H3 & H & ->).
  apply call_returns in H3. destruct H3 as [Hinit ->].
  apply bind_returns in H. destruct H as (t4 & u4 & t4' & H4 & H & ->).
  apply call_returns in H4. destruct H4 as [Hclear ->].
  cbv zeta in H.
  apply bind_returns in H. destruct H as (t5 & u5 & t5' & H5 & H & ->).
  apply logging_info_returns in H5. subst t5.
  apply bind_returns in H. destruct H as (t6 & black_buffer & t6' & H6 & H & ->).
  apply call_getbuffer_returns in H6. destruct H6 as [Hblack ->].
  apply bind_returns in H. destruct H as (t7 & red_buffer & t7' & H7 & H & ->).
  apply call_getbuffer_returns in H7. destruct H7 as [Hred ->].
  apply bind_returns in H. destruct H as (t8 & u8 & t8' & H8 & H & ->).
  apply call_returns in H8. destruct H8 as [Hdisplay ->].
  apply bind_returns in H. destruct H as (t9 & u9 & t9' & H9 & H & ->).
  apply logging_info_returns in H9. subst t9.
  apply call_returns in H. destruct H as [Hsleep ->].
  exists epd, black_buffer, red_buffer. cbv zeta.
  repeat (split; [first [assumption | reflexivity]|]). reflexivity.
Qed.

(** The sample panel, on which every call succeeds. *)
Lemma display_image_on_the_sample_panel :
  exists epd black_buffer red_buffer,
    new_EPD home_world = Returns epd /\
    panel_calls
      (fst (display_image home_world
              sample_image)) =
      [ EpdInit; EpdClear; EpdGetbuffer sample_image;
        EpdGetbuffer (Image_new "1" (width epd, height epd) COLOR_WHITE);
        EpdDisplay black_buffer red_buffer; EpdSleep ].
Proof.
  destruct (display_image home_world
              sample_image) as [t [[]|e]] eqn:E.
  - destruct (display_image_is_linear _ _ _ E)
      as (epd & b & r & Hepd & _ & _ & _ & _ & _ & Hcalls).
    exists epd, b, r. split; [exact Hepd|exact Hcalls].
  - vm_compute in E. discriminate.
Defined.

(** ** The driver *)

Lemma panel_calls_app (t t' : list event) :
  panel_calls (t ++ t') = (panel_calls t ++ panel_calls t')%list.
Proof.
  induction t as [|[| |c] t IH]; cbn [app panel_calls]; [reflexivity| | |];
    now rewrite IH.
Qed.

Lemma fetch_weather_data_calls_no_panel
    (w : world) (API_KEY : string) (t : list event) (r : outcome value) :
  fetch_weather_data w API_KEY = (t, r) -> panel_calls t = [].
Proof.
  unfold fetch_weather_data.
  destruct (requests_get w (url API_KEY) 10) as [response|e];
    cbn [bind lift emit app].
  - unfold raise_for_status.
    destruct ((400 <=? status_code response) && (status_code response <? 600)).
    + cbn. intros H; inversion H; reflexivity.
    + destruct (json response) as [v|e]; cbn.
      * intros H; inversion H; reflexivity.
      * destruct (is_RequestException e); cbn; intros H; inversion H; reflexivity.
  - cbn. destruct (is_RequestException e); cbn; intros H; inversion H; reflexivity.
Qed.

Lemma main_when_fetch_raises (w : world) (API_KEY : string) (t : list event) (e : exn) :
  fetch_weather_data w API_KEY = (t, Raises e) ->
  main w API_KEY =
    ((Log INFO "--- Weather Script Started ---" None :: t) ++
     [Log ERROR "An unexpected error occurred in main loop: " (Some e)], 1)%list.
Proof.
  intros H. unfold main. cbn [bind logging_info emit]. rewrite H. reflexivity.
Qed.

(** C7: (1) whenever the fetch raises, [main] ends with status 1, its trace
    is the start record, the fetch's own trace and the error record for the
    exception, and it holds no call into the panel driver; (2) an exception
    from the transport (a connection error, a timeout) makes the fetch raise
    it; (3) so does a 4xx or 5xx status, as [HTTPError]; in both cases the
    fetch logs the error itself too; (4) when all four stages return, [main]
    ends with status 0; (5) the script's exit status is [main]'s once the
    module has initialised. *)
Theorem fetch_failure_ends_the_run (w : world) (API_KEY : string) :
  (forall t e, fetch_weather_data w API_KEY = (t, Raises e) ->
     main w API_KEY =
       ((Log INFO "--- Weather Script Started ---" None :: t) ++
        [Log ERROR "An unexpected error occurred in main loop: " (Some e)], 1)%list /\
     panel_calls (fst (main w API_KEY)) = [] /\
     snd (main w API_KEY) = 1) /\
  (forall r, requests_get w (url API_KEY) 10 = Raises (RequestException r) ->
     fetch_weather_data w API_KEY =
       ([Get (url API_KEY) 10;
         Log ERROR "Failed to fetch weather data: " (Some (RequestException r))],
        Raises (RequestException r))) /\
  (forall response, requests_get w (url API_KEY) 10 = Returns response ->
     400 <= status_code response < 600 ->
     fetch_weather_data w API_KEY =
       ([Get (url API_KEY) 10;
         Log ERROR "Failed to fetch weather data: "
           (Some (RequestException (HTTPError (status_code response))))],
        Raises (RequestException (HTTPError (status_code response))))) /\
  (forall t1 raw_data t2 weather_data t3 black_image t4,
     fetch_weather_data w API_KEY = (t1, Returns raw_data) ->
     process_weather_data raw_data = (t2, Returns weather_data) ->
     generate_display_image w weather_data = (t3, Returns black_image) ->
     display_image w black_image = (t4, Returns tt) ->
     snd (main w API_KEY) = 0) /\
  (forall t0, module_init w = (t0, Returns API_KEY) ->
     snd (script w) = snd (main w API_KEY) /\
     panel_calls (fst (script w)) = panel_calls (fst (main w API_KEY))).
Proof.
  refine (conj _ (conj _ (conj _ (conj _ _)))).
  - intros t e H. rewrite (main_when_fetch_raises _ _ _ _ H).
    split; [reflexivity|]. split; [|reflexivity].
    cbn [fst]. rewrite panel_calls_app.
    cbn [panel_calls app]. rewrite (fetch_weather_data_calls_no_panel _ _ _ _ H).
    reflexivity.
  - intros r H. unfold fetch_weather_data. rewrite H. reflexivity.
  - intros response H Hs. unfold fetch_weather_data. rewrite H.
    cbn [bind lift emit app]. unfold raise_for_status.
    replace ((400 <=? status_code response) && (status_code response <? 600)) with true
      by (symmetry; apply andb_true_iff; split; [apply Z.leb_le|apply Z.ltb_lt]; lia).
    reflexivity.
  - intros t1 raw t2 wd t3 im t4 H1 H2 H3 H4. unfold main.
    cbn [bind logging_info emit]. rewrite H1. cbn [bind]. rewrite H2. cbn [bind].
    rewrite H3. cbn [bind]. rewrite H4. reflexivity.
  - intros t0 H. unfold script. rewrite H.
    destruct (main w API_KEY) as [t' status]. cbn [fst snd].
    split; [reflexivity|].
    rewrite panel_calls_app.
    assert (Ht0 : panel_calls t0 = []).
    { unfold module_init in H.
      destruct (getenv w "OPENWEATHER_API_KEY") as [k|]; [|discriminate].
      destruct (String.length k =? 0)%nat; [discriminate|].
      unfold load_fonts in H.
      repeat match type of H with
             | context [truetype ?a ?b ?c] => destruct (truetype a b c)
             end; cbn in H; inversion H; reflexivity. }
    rewrite Ht0. reflexivity.
Qed.

(** A run whose request times out. *)
Lemma timeout_ends_the_run :
  main world_with_timeout "0123456789abcdef" =
    ([ Log INFO "--- Weather Script Started ---" None;
       Get (url "0123456789abcdef") 10;
       Log ERROR "Failed to fetch weather data: " (Some (RequestException Timeout));
       Log ERROR "An unexpected error occurred in main loop: "
         (Some (RequestException Timeout)) ], 1) /\
  panel_calls (fst (main world_with_timeout "0123456789abcdef")) = [] /\
  snd (main world_with_timeout "0123456789abcdef") = 1.
Proof.
  apply (proj1 (fetch_failure_ends_the_run world_with_timeout "0123456789abcdef")
           [Get (url "0123456789abcdef") 10;
            Log ERROR "Failed to fetch weather data: " (Some (RequestException Timeout))]
           (RequestException Timeout)).
  reflexivity.
Defined.

(** C9: when [OPENWEATHER_API_KEY] is unset or empty, the module's top level
    raises [ValueError] before anything else is done: the script's trace is
    empty (no request, no log record, no call into the panel driver) and its
    exit status is 1. *)
Theorem missing_api_key_stops_the_script (w : world) :
  getenv w "OPENWEATHER_API_KEY" = None \/ getenv w "OPENWEATHER_API_KEY" = Some "" ->
  module_init w = ([], Raises ValueError) /\
  script w = ([], 1) /\
  snd (script w) <> 0.
Proof.
  intros H.
  assert (Hm : module_init w = ([], Raises ValueError)).
  { unfold module_init. destruct H as [-> | ->]; reflexivity. }
  split; [exact Hm|]. unfold script. rewrite Hm. split; [reflexivity|discriminate].
Qed.

(** A run in an environment without the key. *)
Lemma script_without_key :
  module_init world_without_key = ([], Raises ValueError) /\
  script world_without_key = ([], 1) /\
  snd (script world_without_key) <> 0.
Proof.
  apply (missing_api_key_stops_the_script world_without_key).
  left. reflexivity.
Defined.

(** The sample payload with its [daily] list emptied, fetched and projected. *)
Lemma empty_daily_in_the_sample_world :
  process_weather_data payload_empty_daily = ([], Raises IndexError) /\
  main (sample_world (ok_response payload_empty_daily) no_files) "0123456789abcdef" =
    ([ Log INFO "--- Weather Script Started ---" None;
       Get (url "0123456789abcdef") 10;
       Log INFO "Weather data fetched successfully." None;
       Log ERROR "An unexpected error occurred in main loop: " (Some IndexError) ],
     1).
Proof.
  destruct (empty_daily_raises_IndexError
              (sample_world (ok_response payload_empty_daily) no_files)
              "0123456789abcdef"
              [("current", sample_current); ("daily", VList [])] sample_current
              [Get (url "0123456789abcdef") 10;
               Log INFO "Weather data fetched successfully." None]
              eq_refl eq_refl) as (Hp & _ & Hm).
  split; [exact Hp|]. exact (Hm eq_refl).
Defined.

(** * Further properties *)

(** ** Traces *)

Lemma fst_bind {A B : Type} (m : M A) (k : A -> M B) :
  fst (bind m k) =
  (fst m ++ match snd m with
            | Returns a => fst (k a)
            | Raises _ => []
            end)%list.
Proof.
  destruct m as [t [a|e]]; cbn [bind fst snd].
  - destruct (k a); reflexivity.
  - now rewrite app_nil_r.
Qed.

Lemma Forall_bind {A B : Type} (P : event -> Prop) (m : M A) (k : A -> M B) :
  Forall P (fst m) -> (forall a, Forall P (fst (k a))) -> Forall P (fst (bind m k)).
Proof.
  intros Hm Hk. rewrite fst_bind. apply Forall_app. split; [exact Hm|].
  destruct (snd m); [apply Hk|constructor].
Qed.

Lemma Forall_try_except {A : Type} (P : event -> Prop) (body : M A) (h : exn -> M A) :
  Forall P (fst body) -> (forall e, Forall P (fst (h e))) ->
  Forall P (fst (try_except body h)).
Proof.
  intros Hb Hh. destruct body as [t [a|e]]; cbn [try_except fst] in *; [exact Hb|].
  specialize (Hh e). destruct (h e) as [t' r]. cbn [fst] in *.
  apply Forall_app. auto.
Qed.

(** A handler that logs and re-raises adds its record to what the body did. *)
Lemma try_except_logs (A : Type) (msg : string) (body : M A) (t : list event) (e : exn) :
  try_except body (fun x => logging_error msg x ;; raise x) = (t, Raises e) ->
  exists t0, body = (t0, Raises e) /\ t = (t0 ++ [Log ERROR msg (Some e)])%list.
Proof.
  destruct body as [t0 [a|x]]; cbn; [discriminate|].
  intros H. inversion H; subst. eauto.
Qed.

Lemma logs_hold_no_calls (t : list event) :
  Forall (fun ev => is_log ev = true) t -> panel_calls t = [] /\ requests_made t = [].
Proof.
  induction 1 as [|ev t Hev _ [IH1 IH2]]; [split; reflexivity|].
  destruct ev; try discriminate. cbn. auto.
Qed.

Lemma requests_made_app (t t' : list event) :
  requests_made (t ++ t') = (requests_made t ++ requests_made t')%list.
Proof.
  induction t as [|[| |c] t IH]; cbn [app requests_made]; [reflexivity| | |];
    now rewrite IH.
Qed.

Lemma quiet_is_log (t : list event) :
  Forall (fun ev => is_quiet_log ev = true) t -> Forall (fun ev => is_log ev = true) t.
Proof.
  apply Forall_impl. intros [[]| |]; cbn; congruence.
Qed.

Lemma quiet_has_no_error (t : list event) :
  Forall (fun ev => is_quiet_log ev = true) t -> existsb is_error_record t = false.
Proof.
  induction 1 as [|ev t Hev _ IH]; [reflexivity|].
  cbn [existsb]. rewrite IH. destruct ev as [[]| |]; cbn in *; congruence.
Qed.

(** ** The Fetcher *)

(** X1: the Fetcher returns exactly when the transport returns a response
    whose status is not a 4xx or 5xx and whose body decodes; it then returns
    the decoded body, and its trace is the request and the success record. *)
Theorem fetch_weather_data_returns_iff
    (w : world) (API_KEY : string) (t : list event) (data : value) :
  fetch_weather_data w API_KEY = (t, Returns data) <->
  exists response,
    requests_get w (url API_KEY) 10 = Returns response /\
    ~ (400 <= status_code response < 600) /\
    json response = Returns data /\
    t = [Get (url API_KEY) 10; Log INFO "Weather data fetched successfully." None].
Proof.
  unfold fetch_weather_data.
  destruct (requests_get w (url API_KEY) 10) as [response|e] eqn:Hget;
    cbn [bind lift emit app].
  - unfold raise_for_status.
    destruct ((400 <=? status_code response) && (status_code response <? 600)) eqn:Hs.
    + apply andb_true_iff in Hs. destruct Hs as [H1 H2].
      apply Z.leb_le in H1. apply Z.ltb_lt in H2. cbn. split.
      * discriminate.
      * intros (r & Hr & Hn & _). inversion Hr; subst. exfalso. apply Hn. lia.
    + assert (Hn : ~ (400 <= status_code response < 600)).
      { intros [H1 H2]. apply Z.leb_le in H1. apply Z.ltb_lt in H2.
        rewrite H1, H2 in Hs. discriminate. }
      destruct (json response) as [v|e] eqn:Hj; cbn.
      * split.
        -- intros H. inversion H; subst. exists response. auto.
        -- intros (r & Hr & _ & Hv & ->). inversion Hr; subst.
           rewrite Hj in Hv. inversion Hv; subst. reflexivity.
      * split.
        -- destruct (is_RequestException e); cbn; discriminate.
        -- intros (r & Hr & _ & Hv & _). inversion Hr; subst.
           rewrite Hj in Hv. discriminate.
  - split.
    + cbn. destruct (is_RequestException e); cbn; discriminate.
    + intros (r & Hr & _). discriminate.
Qed.

(** X2: when the body of an accepted response does not decode, the success
    record is already written: the trace is the request, "fetched
    successfully", and then the Fetcher's error record if the decoding error is
    a [RequestException] (nothing more if it is not); the error is re-raised. *)
Theorem undecodable_body_is_reported_after_success
    (w : world) (API_KEY : string) (response : http_response) (e : exn) :
  requests_get w (url API_KEY) 10 = Returns response ->
  ~ (400 <= status_code response < 600) ->
  json response = Raises e ->
  fetch_weather_data w API_KEY =
    ((Get (url API_KEY) 10 ::
      Log INFO "Weather data fetched successfully." None ::
      if is_RequestException e
      then [Log ERROR "Failed to fetch weather data: " (Some e)]
      else []),
     Raises e).
Proof.
  intros Hget Hn Hj. unfold fetch_weather_data. rewrite Hget.
  cbn [bind lift emit app]. unfold raise_for_status.
  destruct ((400 <=? status_code response) && (status_code response <? 600)) eqn:Hs.
  - exfalso. apply Hn. apply andb_true_iff in Hs. destruct Hs as [H1 H2].
    apply Z.leb_le in H1. apply Z.ltb_lt in H2. lia.
  - rewrite Hj. cbn. destruct (is_RequestException e); reflexivity.
Qed.

(** A response that is not JSON. *)
Lemma undecodable_body_in_a_sample_world :
  fetch_weather_data
    (sample_world
       (Returns {| status_code := 200;
                   json := Raises (RequestException JSONDecodeError) |})
       no_files)
    "0123456789abcdef" =
    ([ Get (url "0123456789abcdef") 10;
       Log INFO "Weather data fetched successfully." None;
       Log ERROR "Failed to fetch weather data: "
         (Some (RequestException JSONDecodeError)) ],
     Raises (RequestException JSONDecodeError)).
Proof.
  apply (undecodable_body_is_reported_after_success
           (sample_world
              (Returns {| status_code := 200;
                          json := Raises (RequestException JSONDecodeError) |})
              no_files)
           "0123456789abcdef"
           {| status_code := 200; json := Raises (RequestException JSONDecodeError) |}
           (RequestException JSONDecodeError)).
  - reflexivity.
  - cbn. lia.
  - reflexivity.
Defined.

(** Whatever happens, the Fetcher makes one request. *)
Lemma fetch_weather_data_requests_once
    (w : world) (API_KEY : string) (t : list event) (r : outcome value) :
  fetch_weather_data w API_KEY = (t, r) -> requests_made t = [(url API_KEY, 10)].
Proof.
  unfold fetch_weather_data.
  destruct (requests_get w (url API_KEY) 10) as [response|e];
    cbn [bind lift emit app].
  - unfold raise_for_status.
    destruct ((400 <=? status_code response) && (status_code response <? 600)).
    + cbn. intros H; inversion H; reflexivity.
    + destruct (json response) as [v|e]; cbn.
      * intros H; inversion H; reflexivity.
      * destruct (is_RequestException e); cbn; intros H; inversion H; reflexivity.
  - cbn. destruct (is_RequestException e); cbn; intros H; inversion H; reflexivity.
Qed.

(** ** The Projector *)

(** With the nine fields there and a string description, the outcome is that
    of [pop * 100]. *)
Lemma process_weather_data_present
    (data temp feels_like humidity wind_speed icon temp_max temp_min pop : value)
    (description : string) :
  json_get current_temp data = Some temp ->
  json_get current_feels_like data = Some feels_like ->
  json_get current_humidity data = Some humidity ->
  json_get current_wind_speed data = Some wind_speed ->
  json_get current_weather_0_description data = Some (VStr description) ->
  json_get current_weather_0_icon data = Some icon ->
  json_get daily_0_temp_max data = Some temp_max ->
  json_get daily_0_temp_min data = Some temp_min ->
  json_get daily_0_pop data = Some pop ->
  process_weather_data data =
    match py_mul pop 100 with
    | Returns precip =>
        ([Log INFO "Weather data processed successfully." None],
         Returns [ ("temp_current", temp);
                   ("feels_like", feels_like);
                   ("humidity", humidity);
                   ("wind", wind_speed);
                   ("report", VStr (title description));
                   ("icon_code", icon);
                   ("temp_max", temp_max);
                   ("temp_min", temp_min);
                   ("precip_percent", precip) ])
    | Raises e =>
        (if is_KeyError e
         then [Log ERROR "Error processing weather data: " (Some e)]
         else [],
         Raises e)
    end.
Proof.
  intros Ht Hf Hh Hw Hd Hi Hx Hn Hp.
  unfold current_temp, current_feels_like, current_humidity, current_wind_speed,
    current_weather_0_description, current_weather_0_icon,
    daily_0_temp_max, daily_0_temp_min, daily_0_pop in *.
  cbn [json_get] in *.
  destruct data as [| | | | |?|d]; try discriminate.
  destruct (dict_get "current" d) as [[| | | | |?|c]|] eqn:Ec; try discriminate.
  destruct (dict_get "temp" c) as [?|] eqn:E1; [|discriminate].
  destruct (dict_get "feels_like" c) as [?|] eqn:E2; [|discriminate].
  destruct (dict_get "humidity" c) as [?|] eqn:E3; [|discriminate].
  destruct (dict_get "wind_speed" c) as [?|] eqn:E4; [|discriminate].
  destruct (dict_get "weather" c) as [[| | | | |[|[| | | | |?|w0] ?]|?]|] eqn:E5;
    try discriminate.
  cbn [nth_error] in *.
  destruct (dict_get "description" w0) as [?|] eqn:E6; [|discriminate].
  destruct (dict_get "icon" w0) as [?|] eqn:E7; [|discriminate].
  destruct (dict_get "daily" d) as [[| | | | |[|[| | | | |?|d0] ?]|?]|] eqn:Ed;
    try discriminate.
  cbn [nth_error] in *.
  destruct (dict_get "temp" d0) as [[| | | | |?|tm]|] eqn:E8; try discriminate.
  destruct (dict_get "max" tm) as [?|] eqn:E9; [|discriminate].
  destruct (dict_get "min" tm) as [?|] eqn:E10; [|discriminate].
  destruct (dict_get "pop" d0) as [?|] eqn:E11; [|discriminate].
  inversion Ht; inversion Hf; inversion Hh; inversion Hw; inversion Hd; inversion Hi;
    inversion Hx; inversion Hn; inversion Hp; subst.
  unfold process_weather_data.
  repeat (rewrite bind_lift; cbn [getitem getitem_0 call_title];
          rewrite ?Ec, ?Ed, ?E1, ?E2, ?E3, ?E4, ?E5, ?E6, ?E7, ?E8, ?E9, ?E10, ?E11;
          cbv beta iota).
  destruct (py_mul pop 100) as [precip|e]; cbn; [reflexivity|].
  destruct (is_KeyError e); reflexivity.
Qed.

(** X3: the nine fields being there is not enough for the Projector to
    return: a [pop] that is [null] or an object makes [pop * 100] raise
    [TypeError], which the Projector's handler does not take, so nothing is
    logged and no record is returned. *)
Theorem pop_without_product_raises_TypeError
    (data temp feels_like humidity wind_speed icon temp_max temp_min pop : value)
    (description : string) :
  json_get current_temp data = Some temp ->
  json_get current_feels_like data = Some feels_like ->
  json_get current_humidity data = Some humidity ->
  json_get current_wind_speed data = Some wind_speed ->
  json_get current_weather_0_description data = Some (VStr description) ->
  json_get current_weather_0_icon data = Some icon ->
  json_get daily_0_temp_max data = Some temp_max ->
  json_get daily_0_temp_min data = Some temp_min ->
  json_get daily_0_pop data = Some pop ->
  pop = VNone \/ (exists d, pop = VDict d) ->
  ~ some_required_field_absent data /\
  process_weather_data data = ([], Raises TypeError).
Proof.
  intros Ht Hf Hh Hw Hd Hi Hx Hn Hp Hpop. split.
  - intros (path & Hin & Hnone). cbn in Hin.
    repeat (destruct Hin as [<-|Hin]; [congruence|]). contradiction.
  - rewrite (process_weather_data_present _ _ _ _ _ _ _ _ _ _ Ht Hf Hh Hw Hd Hi Hx Hn Hp).
    destruct Hpop as [->|(d & ->)]; reflexivity.
Qed.

(** X4: the Projector reads nothing but the nine fields: when it returns a
    record for a payload, it returns the same record, with the same trace, for
    every payload that agrees with it on the nine required paths. *)
Theorem process_weather_data_reads_nine_fields (data data' : value)
    (t : list event) (wd : weather_dict) :
  (forall path, In path required_fields -> json_get path data' = json_get path data) ->
  process_weather_data data = (t, Returns wd) ->
  process_weather_data data' = (t, Returns wd).
Proof.
  intros Hsame H.
  destruct (process_weather_data_returns _ _ _ H)
    as (v1 & v2 & v3 & v4 & ds & v6 & v7 & v8 & v9 & pc &
        H1 & H2 & H3 & H4 & H5 & H6 & H7 & H8 & H9 & Hm & -> & ->).
  rewrite (process_weather_data_present data' v1 v2 v3 v4 v6 v7 v8 v9 ds).
  - rewrite Hm. reflexivity.
  - rewrite Hsame; [exact H1|cbn; tauto].
  - rewrite Hsame; [exact H2|cbn; tauto].
  - rewrite Hsame; [exact H3|cbn; tauto].
  - rewrite Hsame; [exact H4|cbn; tauto].
  - rewrite Hsame; [exact H5|cbn; tauto].
  - rewrite Hsame; [exact H6|cbn; tauto].
  - rewrite Hsame; [exact H7|cbn; tauto].
  - rewrite Hsame; [exact H8|cbn; tauto].
  - rewrite Hsame; [exact H9|cbn; tauto].
Qed.

(** X5: a description that is not a string has no [title] method: with
    [current] an object holding the four numbers and a [weather] list whose
    first entry has the description, and [daily] a non-empty list, the
    Projector raises [AttributeError] and, its handler taking only [KeyError],
    logs nothing. *)
Theorem description_without_title_raises_AttributeError
    (data temp feels_like humidity wind_speed daily description : value) :
  json_get current_temp data = Some temp ->
  json_get current_feels_like data = Some feels_like ->
  json_get current_humidity data = Some humidity ->
  json_get current_wind_speed data = Some wind_speed ->
  json_get [Key "daily"; Index 0] data = Some daily ->
  json_get current_weather_0_description data = Some description ->
  (forall s, description <> VStr s) ->
  process_weather_data data = ([], Raises AttributeError).
Proof.
  intros Ht Hf Hh Hw Hd Hdesc Hns.
  unfold current_temp, current_feels_like, current_humidity, current_wind_speed,
    current_weather_0_description in *.
  cbn [json_get] in *.
  destruct data as [| | | | |?|d]; try discriminate.
  destruct (dict_get "current" d) as [[| | | | |?|c]|] eqn:Ec; try discriminate.
  destruct (dict_get "temp" c) as [?|] eqn:E1; [|discriminate].
  destruct (dict_get "feels_like" c) as [?|] eqn:E2; [|discriminate].
  destruct (dict_get "humidity" c) as [?|] eqn:E3; [|discriminate].
  destruct (dict_get "wind_speed" c) as [?|] eqn:E4; [|discriminate].
  destruct (dict_get "weather" c) as [[| | | | |[|[| | | | |?|w0] ?]|?]|] eqn:E5;
    try discriminate.
  cbn [nth_error] in *.
  destruct (dict_get "description" w0) as [?|] eqn:E6; [|discriminate].
  destruct (dict_get "daily" d) as [[| | | | |[|? ?]|?]|] eqn:Ed; try discriminate.
  inversion Hdesc; subst.
  unfold process_weather_data.
  repeat (rewrite bind_lift; cbn [getitem getitem_0];
          rewrite ?Ec, ?Ed, ?E1, ?E2, ?E3, ?E4, ?E5, ?E6; cbv beta iota).
  destruct description; try reflexivity.
  exfalso. eapply Hns. reflexivity.
Qed.

(** A provider that sends the description as a number. *)
Lemma numeric_description_raises_AttributeError :
  process_weather_data (payload_with_description (VInt 803)) =
    ([], Raises AttributeError).
Proof.
  apply (description_without_title_raises_AttributeError
           (payload_with_description (VInt 803))
           (VFloat 21.6) (VFloat 20.9) (VInt 45) (VFloat 3.42)
           (VDict [("temp", sample_daily_temp); ("pop", VFloat 0.17)]) (VInt 803));
    try reflexivity.
  intros s. discriminate.
Defined.

(** A provider that sends [pop] as [null]. *)
Lemma null_pop_raises_TypeError :
  ~ some_required_field_absent (payload_with_pop VNone) /\
  process_weather_data (payload_with_pop VNone) = ([], Raises TypeError).
Proof.
  apply (pop_without_product_raises_TypeError (payload_with_pop VNone)
           (VFloat 21.6) (VFloat 20.9) (VInt 45) (VFloat 3.42) (VStr "04d")
           (VFloat 23.1) (VFloat 12.4) VNone "broken clouds"); try reflexivity.
  left. reflexivity.
Defined.

(** The sample payload with the provider's other entries around it. *)
Lemma fuller_payload_is_projected_alike :
  process_weather_data fuller_payload =
    ([Log INFO "Weather data processed successfully." None], Returns sample_reading).
Proof.
  apply (process_weather_data_reads_nine_fields sample_payload fuller_payload).
  - intros path Hin. cbn in Hin.
    repeat (destruct Hin as [<-|Hin]; [reflexivity|]). contradiction.
  - vm_compute. reflexivity.
Defined.

(** ** The Renderer *)

Lemma bind_raises {A B : Type} (m : M A) (k : A -> M B) (t : list event) (e : exn) :
  bind m k = (t, Raises e) ->
  m = (t, Raises e) \/
  exists t1 a t2, m = (t1, Returns a) /\ k a = (t2, Raises e) /\ t = (t1 ++ t2)%list.
Proof.
  unfold bind. destruct m as [t1 [a|x]].
  - destruct (k a) as [t2 r] eqn:E. intros H. inversion H; subst.
    right. exists t1, a, t2. auto.
  - intros H. inversion H; subst. left. reflexivity.
Qed.

Lemma subscript_raises (wd : weather_dict) (k : string) (t : list event) (e : exn) :
  subscript wd k = (t, Raises e) -> dict_get k wd = None /\ e = KeyError (KStr k).
Proof.
  unfold subscript. destruct (dict_get k wd); cbn; intros H; inversion H; auto.
Qed.

Lemma lift_raises {A : Type} (o : outcome A) (t : list event) (e : exn) :
  lift o = (t, Raises e) -> o = Raises e.
Proof. unfold lift. intros H; inversion H; auto. Qed.

(** One statement of the Renderer that raised: a missing field, or a number
    that does not format. *)
Ltac raised_here H :=
  first
    [ apply subscript_raises in H; destruct H as [H ->];
      right; right; left; eexists; split; [|split; [exact H|reflexivity]];
      cbn; tauto
    | apply lift_raises in H;
      right; right; right; eexists; eexists; eexists;
      split; [|split; [|exact H]; eassumption];
      cbn; tauto ].

Tactic Notation "step_raises" hyp(H) "as" ident(a) ident(H1) :=
  let t1 := fresh "t" in
  let t2 := fresh "t" in
  apply bind_raises in H;
  destruct H as [H|(t1 & a & t2 & H1 & H & ->)];
  [raised_here H|
   cbv beta in H;
   first [ apply subscript_returns in H1; destruct H1 as [H1 ->]
         | apply lift_returns in H1; destruct H1 as [H1 ->] ]].

(** The statements of the Renderer that can raise, in the model: opening the
    template, opening the icon (the template being had), a subscript of the
    reading, a format code.  The trace of a run that raises ends with the
    Renderer's error record, the only error record in it. *)
Lemma generate_display_image_raises_at
    (w : world) (wd : weather_dict) (t : list event) (e : exn) :
  generate_display_image w wd = (t, Raises e) ->
  (exists t0, t = (t0 ++ [Log ERROR "Error generating display image: " (Some e)])%list /\
              existsb is_error_record t0 = false) /\
  (file_at w (template_path w) = BadFile e \/
   ((forall e', file_at w (template_path w) <> BadFile e') /\
    exists icon, dict_get "icon_code" wd = Some icon /\
                 file_at w (icon_path w icon) = BadFile e) \/
   (exists k, In k weather_keys /\ dict_get k wd = None /\ e = KeyError (KStr k)) \/
   (exists k v p, In (k, p) formatted_fields /\
                  dict_get k wd = Some v /\ format_f p v = Raises e)).
Proof.
  intros H. unfold generate_display_image in H. apply try_except_logs in H.
  destruct H as (t0 & H & ->). split.
  { exists t0. split; [reflexivity|]. apply quiet_has_no_error.
    change t0 with (fst (t0, @Raises image e)). rewrite <- H. cbv zeta.
    repeat (apply Forall_bind; [|intros ?]);
      unfold path_exists, open_convert, subscript, lift, logging_info, logging_warning,
        emit, ret, raise;
      repeat match goal with
             | |- context [file_at ?a ?b] => destruct (file_at a b)
             | |- context [dict_get ?a ?b] => destruct (dict_get a b)
             end;
      cbn; repeat constructor. }
  cbv zeta in H.
  apply bind_raises in H. destruct H as [H|(t1 & template & t2 & Hbg & H & ->)].
  { left. unfold path_exists, open_convert, template_path in *.
    destruct (file_at w (path_join (PIC_DIR w) "template.png"));
      cbn in H; inversion H; reflexivity. }
  cbv beta in H.
  assert (Htemplate : forall e', file_at w (template_path w) <> BadFile e').
  { intros e' E. unfold path_exists, open_convert, template_path in *.
    rewrite E in Hbg. cbn in Hbg. discriminate. }
  clear Hbg.
  step_raises H as icon Hicon.
  apply bind_raises in H. destruct H as [H|(t1' & template' & t2' & Hov & H & ->)].
  { unfold path_exists, open_convert in H.
    destruct (file_at w (path_join (ICON_DIR w) (py_str icon ++ ".png"))) eqn:Ef;
      cbv beta iota in H.
    - apply bind_raises in H. destruct H as [H|(? & ? & ? & H1 & H & ->)].
      + apply subscript_raises in H. destruct H as [H _]. congruence.
      + cbn in H. discriminate.
    - cbn in H. discriminate.
    - cbn in H. inversion H; subst. right. left. split; [exact Htemplate|].
      exists icon. auto. }
  cbv beta in H. clear Hov.
  step_raises H as report Hreport.
  step_raises H as precip Hprecip.
  step_raises H as ps Hps.
  step_raises H as temp Htemp.
  step_raises H as ts Hts.
  step_raises H as feels Hfeels.
  step_raises H as fs Hfs.
  step_raises H as high Hhigh.
  step_raises H as hs Hhs.
  step_raises H as low Hlow.
  step_raises H as ls Hls.
  step_raises H as hum Hhum.
  step_raises H as wind Hwind.
  step_raises H as ws Hws.
  cbn in H. discriminate.
Qed.

(** A reading has each of its nine keys. *)
Lemma reading_has_keys (wd : weather_dict) (k : string) :
  reading wd -> In k weather_keys -> dict_get k wd <> None.
Proof.
  intros (Hicon & Hreport & Hprecip & Htemp & Hfeels & Hhigh & Hlow & Hhum & Hwind) Hin.
  destruct Hicon as (? & Hicon). destruct Hreport as (? & Hreport).
  destruct Hprecip as (? & Hprecip & _). destruct Htemp as (? & Htemp & _).
  destruct Hfeels as (? & Hfeels & _). destruct Hhigh as (? & Hhigh & _).
  destruct Hlow as (? & Hlow & _). destruct Hhum as (? & Hhum).
  destruct Hwind as (? & Hwind & _).
  cbn in Hin.
  repeat (destruct Hin as [<-|Hin]; [congruence|]). contradiction.
Qed.

(** The formatted fields of a reading format. *)
Lemma reading_formats (wd : weather_dict) (k : string) (p : nat) (v : value) :
  reading wd -> In (k, p) formatted_fields -> dict_get k wd = Some v ->
  exists s, format_f p v = Returns s.
Proof.
  intros (_ & _ & Hprecip & Htemp & Hfeels & Hhigh & Hlow & _ & Hwind) Hin Hv.
  destruct Hprecip as (? & Hprecip & ?). destruct Htemp as (? & Htemp & ?).
  destruct Hfeels as (? & Hfeels & ?). destruct Hhigh as (? & Hhigh & ?).
  destruct Hlow as (? & Hlow & ?). destruct Hwind as (? & Hwind & ?).
  cbn in Hin.
  repeat (destruct Hin as [E|Hin];
          [inversion E; subst; apply numeric_formats; congruence|]).
  contradiction.
Qed.

(** X6: on a reading that can be displayed (the nine fields, numbers where
    numbers are formatted, a condition text within the font library's limit,
    an integer percent as humidity), the Renderer fails on nothing but an
    asset that is there and cannot be opened, and on each such asset it does
    fail: it raises [e] exactly when opening the template raises [e], or the
    template can be had and opening the icon raises [e].  The exception is
    re-raised to the caller, and the trace ends with the Renderer's error
    record for it, the only error record in it. *)
Theorem generate_display_image_raises
    (w : world) (wd : weather_dict) (e : exn) :
  displayable wd ->
  ((exists t, generate_display_image w wd = (t, Raises e)) <->
   (file_at w (template_path w) = BadFile e \/
    (forall e', file_at w (template_path w) <> BadFile e') /\
    exists icon, dict_get "icon_code" wd = Some icon /\
                 file_at w (icon_path w icon) = BadFile e)) /\
  (forall t, generate_display_image w wd = (t, Raises e) ->
     exists t0,
       t = (t0 ++ [Log ERROR "Error generating display image: " (Some e)])%list /\
       existsb is_error_record t0 = false).
Proof.
  intros (Hr & _ & _). split; [split|].
  - intros (t & H).
    destruct (generate_display_image_raises_at _ _ _ _ H)
      as [_ [Ht|[Hi|[(k & Hin & Hk & _)|(k & v & p & Hin & Hk & Hf)]]]].
    + left. exact Ht.
    + right. exact Hi.
    + exfalso. exact (reading_has_keys wd k Hr Hin Hk).
    + exfalso. destruct (reading_formats wd k p v Hr Hin Hk) as (s & Hs). congruence.
  - intros [Ht|(Hok & icon & Hicon & Hi)].
    + unfold template_path in Ht.
      unfold generate_display_image, path_exists, open_convert. rewrite Ht.
      cbn [negb bind raise try_except logging_error emit app]. eauto.
    + unfold template_path in Hok. unfold icon_path in Hi.
      unfold generate_display_image, subscript, path_exists, open_convert.
      cbv zeta. rewrite Hicon.
      destruct (file_at w (path_join (PIC_DIR w) "template.png")) as [|size|e'];
        [| |exfalso; exact (Hok e' eq_refl)];
        cbn [negb bind raise ret try_except logging_error logging_warning emit app
             Image_new];
        rewrite Hi;
        cbn [negb bind raise ret try_except logging_error logging_warning emit app];
        eauto.
  - intros t H. exact (proj1 (generate_display_image_raises_at _ _ _ _ H)).
Qed.

(** X7: when the icon asset is there and opens, it is pasted once, at
    (40, 15), before any text is drawn, and no warning about it is logged:
    the image is the background, the paste and the ten text overlays, and the
    trace is the background's record, if any, and the success record. *)
Theorem present_icon_is_pasted_first
    (w : world) (wd : weather_dict) (icon : value) (size : Z * Z) :
  reading wd ->
  dict_get "icon_code" wd = Some icon ->
  file_at w (icon_path w icon) = ImageFile size ->
  (forall e, file_at w (template_path w) <> BadFile e) ->
  exists tb base report precip temp feels high low humidity wind,
    background w = Some (tb, base) /\
    labels_of wd report precip temp feels high low humidity wind /\
    generate_display_image w wd =
      ((tb ++ [Log INFO "Display image generated successfully." None])%list,
       Returns {| im_base := base;
                  im_drawn :=
                    Paste (decoded (icon_path w icon) size) (40, 15) ::
                    text_overlays w report precip temp feels high low humidity wind
                      (strftime_HM w) |}).
Proof.
  intros Hr Hicon Hfile Hok.
  destruct (background_is_quiet w Hok) as (tb & base & Hb & _).
  destruct (reading_is_drawn w wd tb base Hr Hb) as (t & im & H).
  { intros i e Hi. rewrite Hicon in Hi. inversion Hi; subst. rewrite Hfile. discriminate. }
  destruct (generate_display_image_returns _ _ _ _ H)
    as (tb' & base' & icon' & ti & ops & vr & vp & ps & vt & ts & vf & fs &
        vh & hs & vl & ls & vu & vw & ws &
        Hb' & Hicon' & Hi & Hvr & Hvp & Hps & Hvt & Hts & Hvf & Hfs & Hvh & Hhs &
        Hvl & Hls & Hvu & Hvw & Hws & Ht & Him).
  rewrite Hb in Hb'. inversion Hb'; subst tb' base'.
  rewrite Hicon in Hicon'. inversion Hicon'; subst icon'.
  unfold icon_overlay in Hi. rewrite Hfile in Hi. inversion Hi; subst ti ops.
  exists tb, base, (py_str vr), ps, ts, fs, hs, ls, (py_str vu), ws.
  split; [exact Hb|]. split.
  - unfold labels_of. repeat split; eexists; split; eauto.
  - rewrite H, Ht, Him. reflexivity.
Qed.

(** The sample reading where [pic/icon/04d.png] is a 256x256 image. *)
Lemma sample_icon_is_pasted_first :
  exists tb base report precip temp feels high low humidity wind,
    background (sample_world (ok_response sample_payload) icon_04d) = Some (tb, base) /\
    labels_of sample_reading report precip temp feels high low humidity wind /\
    generate_display_image (sample_world (ok_response sample_payload) icon_04d)
      sample_reading =
      ((tb ++ [Log INFO "Display image generated successfully." None])%list,
       Returns {| im_base := base;
                  im_drawn :=
                    Paste (decoded
                             (icon_path (sample_world (ok_response sample_payload) icon_04d)
                                (VStr "04d"))
                             (256, 256)) (40, 15) ::
                    text_overlays (sample_world (ok_response sample_payload) icon_04d)
                      report precip temp feels high low humidity wind
                      (strftime_HM (sample_world (ok_response sample_payload) icon_04d)) |}).
Proof.
  apply (present_icon_is_pasted_first
           (sample_world (ok_response sample_payload) icon_04d) sample_reading
           (VStr "04d") (256, 256)).
  - exact sample_reading_is_a_reading.
  - reflexivity.
  - reflexivity.
  - intros e. discriminate.
Defined.

(** The sample reading where [pic/icon/04d.png] is there and is no image. *)
Lemma broken_icon_fails_the_sample_reading :
  exists t0,
    generate_display_image (sample_world (ok_response sample_payload) broken_icon_04d)
      sample_reading =
      ((t0 ++ [Log ERROR "Error generating display image: "
                 (Some (OSError "cannot identify image file"))])%list,
       Raises (OSError "cannot identify image file")) /\
    existsb is_error_record t0 = false.
Proof.
  destruct (generate_display_image_raises
              (sample_world (ok_response sample_payload) broken_icon_04d)
              sample_reading (OSError "cannot identify image file"))
    as [Hiff Htrace].
  { split; [exact sample_reading_is_a_reading|]. split.
    - exists "Broken Clouds". split; [reflexivity|]. vm_compute. discriminate.
    - exists 45. split; [reflexivity|]. lia. }
  destruct (proj2 Hiff) as (t & Ht).
  { right. split; [intros e'; discriminate|].
    exists (VStr "04d"). split; reflexivity. }
  destruct (Htrace t Ht) as (t0 & -> & Hquiet).
  exists t0. split; [exact Ht|exact Hquiet].
Defined.

(** X8: the Renderer never fails for a missing field on what the Projector
    returned: for every record the Projector returns whose six formatted
    fields are numbers, and with asset files that open when they are there,
    the Renderer returns an image. *)
Theorem projected_reading_is_drawn
    (w : world) (data : value) (t : list event) (wd : weather_dict) :
  process_weather_data data = (t, Returns wd) ->
  (forall k v,
     In k ["precip_percent"; "temp_current"; "feels_like"; "temp_max"; "temp_min"; "wind"] ->
     dict_get k wd = Some v -> numeric v) ->
  (forall e, file_at w (template_path w) <> BadFile e) ->
  (forall icon e, dict_get "icon_code" wd = Some icon ->
                  file_at w (icon_path w icon) <> BadFile e) ->
  reading wd /\ exists t' im, generate_display_image w wd = (t', Returns im).
Proof.
  intros H Hnum Htemplate Hicon.
  destruct (process_weather_data_returns _ _ _ H)
    as (v1 & v2 & v3 & v4 & ds & v6 & v7 & v8 & v9 & pc & _ & _ & _ & _ & _ & _ & _ &
        _ & _ & _ & _ & Hwd).
  assert (Hr : reading wd).
  { subst wd. unfold reading.
    refine (conj _ (conj _ (conj _ (conj _ (conj _ (conj _ (conj _ (conj _ _)))))))).
    - exists v6. reflexivity.
    - eexists. reflexivity.
    - exists pc. split; [reflexivity|].
      apply (Hnum "precip_percent"); [cbn; tauto|reflexivity].
    - exists v1. split; [reflexivity|].
      apply (Hnum "temp_current"); [cbn; tauto|reflexivity].
    - exists v2. split; [reflexivity|].
      apply (Hnum "feels_like"); [cbn; tauto|reflexivity].
    - exists v7. split; [reflexivity|].
      apply (Hnum "temp_max"); [cbn; tauto|reflexivity].
    - exists v8. split; [reflexivity|].
      apply (Hnum "temp_min"); [cbn; tauto|reflexivity].
    - exists v3. reflexivity.
    - exists v4. split; [reflexivity|].
      apply (Hnum "wind"); [cbn; tauto|reflexivity]. }
  split; [exact Hr|].
  destruct (background_is_quiet w Htemplate) as (tb & base & Hb & _).
  exact (reading_is_drawn w wd tb base Hr Hb Hicon).
Qed.

(** The sample payload, projected and drawn. *)
Lemma sample_payload_is_drawn :
  reading sample_reading /\
  exists t' im, generate_display_image home_world sample_reading = (t', Returns im).
Proof.
  apply (projected_reading_is_drawn home_world sample_payload
           [Log INFO "Weather data processed successfully." None] sample_reading).
  - vm_compute. reflexivity.
  - intros k v Hin Hv. cbn in Hin.
    repeat (destruct Hin as [<-|Hin]; [cbn in Hv; inversion Hv; exact I|]).
    contradiction.
  - intros e. discriminate.
  - intros icon e _. discriminate.
Defined.

(** ** The Presenter *)

Ltac run_presenter :=
  cbn [bind lift emit call call_getbuffer logging_info logging_error try_except
       raise ret app fst snd panel_calls].

(** X9: the Presenter stops at the first call that fails.  On a panel, the
    calls it makes into the driver are those of the plan [init], [Clear],
    [getbuffer] of the composed image, [getbuffer] of the blank image,
    [display], [sleep], up to and including the first one that raises; it
    raises that call's exception, and returns when none raises.  No call is
    made after a failure and none is made twice.  When the driver object
    cannot be made, no call is made and that exception is raised. *)
Theorem display_image_stops_at_the_first_failure (w : world) (black_image : image) :
  match new_EPD w with
  | Returns epd =>
      (panel_calls (fst (display_image w black_image)),
       snd (display_image w black_image)) =
      run_plan epd (planned_calls epd black_image)
  | Raises e =>
      panel_calls (fst (display_image w black_image)) = [] /\
      snd (display_image w black_image) = Raises e
  end.
Proof.
  unfold display_image, planned_calls.
  destruct (new_EPD w) as [epd|e0]; run_presenter; [|split; reflexivity].
  cbn [run_plan driver_raises].
  destruct (init epd); run_presenter; [reflexivity|].
  destruct (Clear epd); run_presenter; [reflexivity|].
  cbv zeta.
  destruct (getbuffer epd black_image) as [b|e1]; run_presenter; [|reflexivity].
  destruct (getbuffer epd (Image_new "1" (width epd, height epd) COLOR_WHITE))
    as [r|e2]; run_presenter; [|reflexivity].
  cbn [run_plan driver_raises].
  destruct (display epd b r); run_presenter; [reflexivity|].
  destruct (sleep epd); run_presenter; reflexivity.
Qed.

(** A trace of known length that ends with a given record. *)
Ltac trace_ends_with_error :=
  first [ exists []; eexists; reflexivity
        | eexists [_]; eexists; reflexivity
        | eexists [_; _]; eexists; reflexivity
        | eexists [_; _; _]; eexists; reflexivity
        | eexists [_; _; _; _]; eexists; reflexivity
        | eexists [_; _; _; _; _]; eexists; reflexivity
        | eexists [_; _; _; _; _; _]; eexists; reflexivity
        | eexists [_; _; _; _; _; _; _]; eexists; reflexivity
        | eexists [_; _; _; _; _; _; _; _]; eexists; reflexivity
        | eexists [_; _; _; _; _; _; _; _; _]; eexists; reflexivity
        | eexists [_; _; _; _; _; _; _; _; _; _]; eexists; reflexivity ].

(** A run of the Presenter that ended before [sleep]. *)
Ltac stopped_before_sleep :=
  refine (conj (conj _ _) (conj _ _));
  [ intros Hin; cbn in Hin; exfalso;
    decompose [or] Hin; try discriminate; contradiction
  | intros (Hi & Hc & b' & r' & Hb & Hr & Hd); exfalso; congruence
  | intros _; trace_ends_with_error
  | intros (Hi & Hc & b' & r' & Hb & Hr & Hd); exfalso; congruence ].

(** X10: the panel is put to sleep exactly when everything before [sleep]
    worked: [sleep] is among the calls of a run if and only if [init],
    [Clear], both conversions and [display] returned.  When one of them
    fails, the Presenter raises after writing its error record, and the panel
    is left awake; when all of them work, the outcome of the run is the
    outcome of [sleep]. *)
Theorem failed_display_does_not_sleep
    (w : world) (black_image : image) (epd : EPD) :
  new_EPD w = Returns epd ->
  (In EpdSleep (panel_calls (fst (display_image w black_image))) <->
   reaches_sleep epd black_image) /\
  (~ reaches_sleep epd black_image ->
   exists t e,
     display_image w black_image =
       ((t ++ [Log ERROR "Failed to display image: " (Some e)])%list, Raises e)) /\
  (reaches_sleep epd black_image ->
   snd (display_image w black_image) =
     match sleep epd with
     | Some e => Raises e
     | None => Returns tt
     end).
Proof.
  intros Hepd. unfold display_image, reaches_sleep. rewrite Hepd. run_presenter.
  destruct (init epd) eqn:Ei; run_presenter; [stopped_before_sleep|].
  destruct (Clear epd) eqn:Ec; run_presenter; [stopped_before_sleep|].
  cbv zeta.
  destruct (getbuffer epd black_image) as [b|e1] eqn:Eb; run_presenter;
    [|stopped_before_sleep].
  destruct (getbuffer epd (Image_new "1" (width epd, height epd) COLOR_WHITE))
    as [r|e2] eqn:Er; run_presenter; [|stopped_before_sleep].
  destruct (display epd b r) eqn:Ed; run_presenter; [stopped_before_sleep|].
  assert (Hall : @None exn = None /\ @None exn = None /\
                 exists black_buffer red_buffer,
                   Returns b = Returns black_buffer /\
                   Returns r = Returns red_buffer /\
                   display epd black_buffer red_buffer = None).
  { repeat split. exists b, r. auto. }
  destruct (sleep epd) eqn:Es; run_presenter;
    (refine (conj (conj _ _) (conj _ _));
     [ intros _; exact Hall
     | intros _; cbn; tauto
     | intros Hn; exfalso; exact (Hn Hall)
     | intros _; reflexivity ]).
Qed.

(** A panel whose [display] fails with a bus error is left awake. *)
Lemma failed_transfer_leaves_the_panel_awake :
  ~ In EpdSleep (panel_calls (fst (display_image world_with_failing_display sample_image)))
  /\ exists t e,
       display_image world_with_failing_display sample_image =
         ((t ++ [Log ERROR "Failed to display image: " (Some e)])%list, Raises e).
Proof.
  destruct (failed_display_does_not_sleep world_with_failing_display sample_image
              EPD_with_failing_display eq_refl) as (Hiff & Hfail & _).
  assert (Hn : ~ reaches_sleep EPD_with_failing_display sample_image).
  { intros (_ & _ & b & r & _ & _ & Hd). discriminate Hd. }
  split.
  - intros Hin. apply Hn. apply Hiff. exact Hin.
  - exact (Hfail Hn).
Defined.

(** ** The driver *)

Lemma process_weather_data_only_logs (data : value) :
  Forall (fun ev => is_log ev = true) (fst (process_weather_data data)).
Proof.
  destruct (process_weather_data data) as [t [wd|e]] eqn:E; cbn [fst].
  - destruct (process_weather_data_returns _ _ _ E)
      as (? & ? & ? & ? & ? & ? & ? & ? & ? & ? & _ & _ & _ & _ & _ & _ & _ & _ & _ &
          _ & -> & _).
    repeat constructor.
  - rewrite (process_weather_data_raises _ _ _ E).
    destruct (is_KeyError e); repeat constructor.
Qed.

Lemma generate_display_image_only_logs (w : world) (wd : weather_dict) :
  Forall (fun ev => is_log ev = true) (fst (generate_display_image w wd)).
Proof.
  unfold generate_display_image. apply Forall_try_except.
  - cbv zeta.
    repeat (apply Forall_bind; [|intros ?]);
      unfold path_exists, open_convert, subscript, lift, logging_info, logging_warning,
        emit, ret, raise;
      repeat match goal with
             | |- context [file_at ?a ?b] => destruct (file_at a b)
             | |- context [dict_get ?a ?b] => destruct (dict_get a b)
             end;
      cbn; repeat constructor.
  - intros e. cbn. repeat constructor.
Qed.

Lemma display_image_requests_nothing (w : world) (black_image : image) :
  requests_made (fst (display_image w black_image)) = [].
Proof.
  unfold display_image.
  destruct (new_EPD w) as [epd|e0]; run_presenter; [|reflexivity].
  destruct (init epd); run_presenter; [reflexivity|].
  destruct (Clear epd); run_presenter; [reflexivity|].
  cbv zeta.
  destruct (getbuffer epd black_image) as [b|e1]; run_presenter; [|reflexivity].
  destruct (getbuffer epd (Image_new "1" (width epd, height epd) COLOR_WHITE))
    as [r|e2]; run_presenter; [|reflexivity].
  destruct (display epd b r); run_presenter; [reflexivity|].
  destruct (sleep epd); run_presenter; reflexivity.
Qed.

Lemma display_image_returns_quietly
    (w : world) (black_image : image) (t : list event) (u : unit) :
  display_image w black_image = (t, Returns u) -> existsb is_error_record t = false.
Proof.
  unfold display_image.
  destruct (new_EPD w) as [epd|e0]; run_presenter; [|discriminate].
  destruct (init epd); run_presenter; [discriminate|].
  destruct (Clear epd); run_presenter; [discriminate|].
  cbv zeta.
  destruct (getbuffer epd black_image) as [b|e1]; run_presenter; [|discriminate].
  destruct (getbuffer epd (Image_new "1" (width epd, height epd) COLOR_WHITE))
    as [r|e2]; run_presenter; [|discriminate].
  destruct (display epd b r); run_presenter; [discriminate|].
  destruct (sleep epd); run_presenter; [discriminate|].
  intros H. inversion H. reflexivity.
Qed.

(** The stages of [main], one after the other. *)
Ltac run_main w API_KEY :=
  unfold main; cbn [bind logging_info emit];
  destruct (fetch_weather_data w API_KEY) as [t1 [raw_data|e1]] eqn:Efetch;
  cbn [bind];
  [ destruct (process_weather_data raw_data) as [t2 [weather_data|e2]] eqn:Eprocess;
    cbn [bind];
    [ destruct (generate_display_image w weather_data) as [t3 [black_image|e3]]
        eqn:Egenerate;
      cbn [bind];
      [ destruct (display_image w black_image) as [t4 [[]|e4]] eqn:Edisplay;
        cbn [bind]
      | ]
    | ]
  | ]; cbn [bind logging_info emit app fst snd].

(** X11: the panel is touched only with an image in hand: if a run of [main]
    makes any call into the panel driver, then the fetch, the projection and
    the rendering all returned; a failure of any of them ends the run without
    a single call. *)
Theorem panel_is_called_only_with_an_image (w : world) (API_KEY : string) :
  panel_calls (fst (main w API_KEY)) <> [] ->
  exists t1 raw_data t2 weather_data t3 black_image,
    fetch_weather_data w API_KEY = (t1, Returns raw_data) /\
    process_weather_data raw_data = (t2, Returns weather_data) /\
    generate_display_image w weather_data = (t3, Returns black_image) /\
    panel_calls (fst (main w API_KEY)) =
      panel_calls (fst (display_image w black_image)).
Proof.
  pose proof (fetch_weather_data_calls_no_panel w API_KEY) as Hf.
  run_main w API_KEY.
  all: pose proof (Hf _ _ eq_refl) as Hf1.
  all: try (pose proof (proj1 (logs_hold_no_calls _
                                 (process_weather_data_only_logs raw_data))) as Hp;
            rewrite Eprocess in Hp; cbn [fst] in Hp).
  all: try (pose proof (proj1 (logs_hold_no_calls _
                                 (generate_display_image_only_logs w weather_data)))
              as Hg;
            rewrite Egenerate in Hg; cbn [fst] in Hg).
  all: intros H.
  1, 2: exists t1, raw_data, t2, weather_data, t3, black_image;
    rewrite Edisplay; cbn [fst panel_calls];
    rewrite !panel_calls_app, Hf1, Hp, Hg; cbn [app panel_calls];
    rewrite ?app_nil_r; auto.
  all: exfalso; apply H; cbn [panel_calls];
    rewrite !panel_calls_app, ?Hf1, ?Hp, ?Hg; reflexivity.
Qed.

(** A run that displays the sample payload. *)
Lemma sample_run_calls_the_panel_with_its_image :
  exists t1 raw_data t2 weather_data t3 black_image,
    fetch_weather_data home_world "0123456789abcdef" = (t1, Returns raw_data) /\
    process_weather_data raw_data = (t2, Returns weather_data) /\
    generate_display_image home_world weather_data = (t3, Returns black_image) /\
    panel_calls (fst (main home_world "0123456789abcdef")) =
      panel_calls (fst (display_image home_world black_image)).
Proof.
  apply (panel_is_called_only_with_an_image home_world "0123456789abcdef").
  vm_compute. discriminate.
Defined.

Lemma fetch_weather_data_returns_quietly
    (w : world) (API_KEY : string) (t : list event) (data : value) :
  fetch_weather_data w API_KEY = (t, Returns data) ->
  existsb is_error_record t = false.
Proof.
  unfold fetch_weather_data.
  destruct (requests_get w (url API_KEY) 10) as [response|e];
    cbn [bind lift emit app].
  - unfold raise_for_status.
    destruct ((400 <=? status_code response) && (status_code response <? 600)).
    + cbn. discriminate.
    + destruct (json response) as [v|e]; cbn.
      * intros H; inversion H; reflexivity.
      * destruct (is_RequestException e); cbn; discriminate.
  - cbn. destruct (is_RequestException e); cbn; discriminate.
Qed.

Lemma generate_display_image_returns_quietly
    (w : world) (wd : weather_dict) (t : list event) (im : image) :
  generate_display_image w wd = (t, Returns im) ->
  existsb is_error_record t = false.
Proof.
  intros H.
  destruct (generate_display_image_returns _ _ _ _ H)
    as (tb & base & icon & ti & ops & ? & ? & ? & ? & ? & ? & ? & ? & ? & ? & ? & ? &
        ? & ? & Hb & _ & Hi & _ & _ & _ & _ & _ & _ & _ & _ & _ & _ & _ & _ & _ & _ &
        -> & _).
  rewrite !existsb_app.
  unfold background in Hb. unfold icon_overlay in Hi.
  destruct (file_at w (template_path w)); inversion Hb; subst;
    destruct (file_at w (icon_path w icon)); inversion Hi; subst; reflexivity.
Qed.

(** X12: the exit status of [main] tells whether anything went wrong: it is
    0 exactly when the run's trace holds no error record, and otherwise 1, with
    [main]'s own error record as the last of the trace. *)
Theorem exit_status_is_0_iff_no_error_record (w : world) (API_KEY : string) :
  (snd (main w API_KEY) = 0 <->
   existsb is_error_record (fst (main w API_KEY)) = false) /\
  (snd (main w API_KEY) = 0 \/
   snd (main w API_KEY) = 1 /\
   exists t e,
     fst (main w API_KEY) =
       (t ++ [Log ERROR "An unexpected error occurred in main loop: " (Some e)])%list).
Proof.
  run_main w API_KEY.
  - pose proof (fetch_weather_data_returns_quietly _ _ _ _ Efetch) as H1.
    destruct (process_weather_data_returns _ _ _ Eprocess)
      as (? & ? & ? & ? & ? & ? & ? & ? & ? & ? & _ & _ & _ & _ & _ & _ & _ & _ & _ &
          _ & -> & _).
    pose proof (generate_display_image_returns_quietly _ _ _ _ Egenerate) as H3.
    pose proof (display_image_returns_quietly _ _ _ _ Edisplay) as H4.
    split; [|left; reflexivity].
    split; [intros _|reflexivity].
    cbn [existsb is_error_record orb].
    rewrite !existsb_app, H1, H3, H4. reflexivity.
  - split.
    + split; [discriminate|]. intros H. cbn [existsb is_error_record orb] in H.
      rewrite existsb_app in H. cbn in H. rewrite orb_true_r in H. discriminate.
    + right. split; [reflexivity|]. eexists (_ :: _), _. reflexivity.
  - split.
    + split; [discriminate|]. intros H. cbn [existsb is_error_record orb] in H.
      rewrite existsb_app in H. cbn in H. rewrite orb_true_r in H. discriminate.
    + right. split; [reflexivity|]. eexists (_ :: _), _. reflexivity.
  - split.
    + split; [discriminate|]. intros H. cbn [existsb is_error_record orb] in H.
      rewrite existsb_app in H. cbn in H. rewrite orb_true_r in H. discriminate.
    + right. split; [reflexivity|]. eexists (_ :: _), _. reflexivity.
  - split.
    + split; [discriminate|]. intros H. cbn [existsb is_error_record orb] in H.
      rewrite existsb_app in H. cbn in H. rewrite orb_true_r in H. discriminate.
    + right. split; [reflexivity|]. eexists (_ :: _), _. reflexivity.
Qed.

(** X13: a run of [main] makes exactly one request, to the configured URL
    with a timeout of 10 seconds, whatever the outcome of any stage: nothing
    is retried and no other stage goes to the network. *)
Theorem main_requests_once (w : world) (API_KEY : string) :
  requests_made (fst (main w API_KEY)) = [(url API_KEY, 10)].
Proof.
  pose proof (fetch_weather_data_requests_once w API_KEY) as Hf.
  run_main w API_KEY.
  all: pose proof (Hf _ _ eq_refl) as Hf1.
  all: try (pose proof (proj2 (logs_hold_no_calls _
                                 (process_weather_data_only_logs raw_data))) as Hp;
            rewrite Eprocess in Hp; cbn [fst] in Hp).
  all: try (pose proof (proj2 (logs_hold_no_calls _
                                 (generate_display_image_only_logs w weather_data)))
              as Hg;
            rewrite Egenerate in Hg; cbn [fst] in Hg).
  all: try (pose proof (display_image_requests_nothing w black_image) as Hd;
            rewrite Edisplay in Hd; cbn [fst] in Hd).
  all: cbn [requests_made];
    rewrite !requests_made_app, ?Hf1, ?Hp, ?Hg, ?Hd; reflexivity.
Qed.

(** ** The module's top level *)

Lemma load_fonts_cases (w : world) :
  (load_fonts w = ([], Returns tt) /\
   forall size, In size font_sizes ->
                truetype w (path_join (FONT_DIR w) "Font.ttc") size = None) \/
  (exists e size, load_fonts w = ([], Raises e) /\ In size font_sizes /\
                  truetype w (path_join (FONT_DIR w) "Font.ttc") size = Some e).
Proof.
  unfold load_fonts, font_sizes.
  destruct (truetype w (path_join (FONT_DIR w) "Font.ttc") 22) eqn:E22;
    [right; eexists; exists 22; cbn; intuition|].
  destruct (truetype w (path_join (FONT_DIR w) "Font.ttc") 30) eqn:E30;
    [right; eexists; exists 30; cbn; intuition|].
  destruct (truetype w (path_join (FONT_DIR w) "Font.ttc") 35) eqn:E35;
    [right; eexists; exists 35; cbn; intuition|].
  destruct (truetype w (path_join (FONT_DIR w) "Font.ttc") 50) eqn:E50;
    [right; eexists; exists 50; cbn; intuition|].
  destruct (truetype w (path_join (FONT_DIR w) "Font.ttc") 60) eqn:E60;
    [right; eexists; exists 60; cbn; intuition|].
  destruct (truetype w (path_join (FONT_DIR w) "Font.ttc") 160) eqn:E160;
    [right; eexists; exists 160; cbn; intuition|].
  left. split; [reflexivity|].
  intros size Hin. cbn in Hin.
  repeat (destruct Hin as [<-|Hin]; [assumption|]). contradiction.
Qed.

(** X14: with the API key set and not empty, the fonts decide whether
    [main] is reached: when each of the six sizes of [Font.ttc] loads, the
    script is the run of [main] with that key; when one of them does not, the
    script ends with status 1 before anything is logged, requested or sent to
    the panel. *)
Theorem script_reaches_main_iff (w : world) (API_KEY : string) :
  getenv w "OPENWEATHER_API_KEY" = Some API_KEY ->
  String.length API_KEY <> 0%nat ->
  ((forall size, In size font_sizes ->
                 truetype w (path_join (FONT_DIR w) "Font.ttc") size = None) ->
   script w = main w API_KEY) /\
  ((exists size e, In size font_sizes /\
                   truetype w (path_join (FONT_DIR w) "Font.ttc") size = Some e) ->
   script w = ([], 1)).
Proof.
  intros Hkey Hlen.
  assert (Hinit : module_init w = (load_fonts w ;; ret API_KEY)).
  { unfold module_init. rewrite Hkey.
    destruct (Nat.eqb_spec (String.length API_KEY) 0); [contradiction|reflexivity]. }
  unfold script. rewrite Hinit.
  destruct (load_fonts_cases w) as [[Hl Hall]|(e & size & Hl & Hin & Hsome)];
    rewrite Hl; cbn [bind ret app].
  - split.
    + intros _. destruct (main w API_KEY). reflexivity.
    + intros (size & e & Hin & Hsome). rewrite (Hall size Hin) in Hsome. discriminate.
  - split.
    + intros Hall. rewrite (Hall size Hin) in Hsome. discriminate.
    + intros _. reflexivity.
Qed.

(** The sample world, where every font loads. *)
Lemma sample_script_is_main :
  script home_world = main home_world "0123456789abcdef".
Proof.
  apply (script_reaches_main_iff home_world "0123456789abcdef").
  - reflexivity.
  - discriminate.
  - intros size _. reflexivity.
Defined.

(** ** Rounding for display *)

Lemma round_half_even_is_nearest (a d : Z) :
  0 < d ->
  2 * Z.abs (round_half_even a d * d - a) <= d /\
  (2 * Z.abs (round_half_even a d * d - a) = d -> Z.even (round_half_even a d) = true).
Proof.
  intros Hd. unfold round_half_even.
  pose proof (Z.div_mod a d ltac:(lia)) as Ha.
  pose proof (Z.mod_pos_bound a d Hd) as Hr.
  set (q := a / d) in *. set (r := a mod d) in *.
  destruct (Z.ltb_spec (2 * r) d) as [H1|H1].
  - replace (q * d - a) with (- r) by lia. split; lia.
  - destruct (Z.ltb_spec d (2 * r)) as [H2|H2].
    + replace ((q + 1) * d - a) with (d - r) by lia. split; lia.
    + assert (Hr2 : 2 * r = d) by lia.
      destruct (Z.even q) eqn:Hq.
      * replace (q * d - a) with (- r) by lia. split; [lia|auto].
      * replace ((q + 1) * d - a) with (d - r) by lia. split; [lia|].
        intros _. rewrite Z.add_1_r, Z.even_succ, <- Z.negb_even, Hq. reflexivity.
Qed.

(** X15: the number drawn for a float is the nearest one with the asked
    number of decimals, the even one on a tie: for a finite float [m * 2^e],
    the format code [f] with precision [p] prints the digits of the integer
    [n] of units of [10^-p] for which [|n - m * 2^e * 10^p| <= 1/2], with [n]
    even when the distance is exactly 1/2, and [n] exact when the float times
    [10^p] is an integer already. *)
Theorem drawn_number_is_the_nearest
    (p : nat) (f : float) (s : bool) (m : positive) (e : Z) :
  Prim2SF f = S754_finite s m e ->
  let n := scaled_round m e p in
  format_float_f p f = sign_text s ++ fixed_point n p /\
  (0 <= e -> n = Z.pos m * 10 ^ Z.of_nat p * 2 ^ e) /\
  (e < 0 ->
   2 * Z.abs (n * 2 ^ (- e) - Z.pos m * 10 ^ Z.of_nat p) <= 2 ^ (- e) /\
   (2 * Z.abs (n * 2 ^ (- e) - Z.pos m * 10 ^ Z.of_nat p) = 2 ^ (- e) ->
    Z.even n = true)).
Proof.
  intros Hf n. split; [|split].
  - unfold format_float_f. rewrite Hf. reflexivity.
  - intros He. unfold n, scaled_round.
    destruct (Z.leb_spec 0 e); [reflexivity|lia].
  - intros He. unfold n, scaled_round.
    destruct (Z.leb_spec 0 e); [lia|].
    apply round_half_even_is_nearest. apply Z.pow_pos_nonneg; lia.
Qed.

(** 2.5 degrees, halfway between 2 and 3, is drawn as 2. *)
Lemma a_tie_is_drawn_even :
  format_float_f 0 2.5 = "2" /\
  2 * Z.abs (2 * 2 ^ 51 - 5629499534213120) = 2 ^ 51 /\
  Z.even 2 = true.
Proof.
  destruct (drawn_number_is_the_nearest 0 2.5%float false 5629499534213120 (-51))
    as (Htext & _ & Hnear).
  - vm_compute. reflexivity.
  - destruct (Hnear ltac:(lia)) as [_ Heven].
    split; [rewrite Htext; vm_compute; reflexivity|].
    split; [vm_compute; reflexivity|].
    reflexivity.
Defined.
